(** * CustomDeployment controller: the reconcile state machine

    A shallow embedding of the two [Reconcile] implementations of the
    custom-deployment-controller (the finalizer-aware one under
    [internal/controller] and the finalizer-free one under [controller]),
    of [handleCreateOrUpdate], [handleDeletion] and [desiredDeployment],
    together with the parts of apimachinery and controller-runtime they
    call.  The API client is an interface in the source; here it is a
    class of transition functions over an arbitrary client state, and
    every call a reconcile pass issues is recorded, with its answer, in a
    trace. *)

From Stdlib Require Import ZArith Bool.
From stdpp Require Import base option list strings gmap.

Local Open Scope string_scope.
Local Open Scope Z_scope.
Local Open Scope list_scope.

(** ** Go values *)

(** [ptr.To] of k8s.io/utils: a pointer to a copy of the value.  Optional
    (pointer) fields are options, [nil] is [None]. *)
Module ptr.
Definition To {A : Type} (v : A) : option A := Some v.
End ptr.

(** ** apimachinery: errors *)

Module errors.

Inductive StatusReason :=
| StatusReasonNotFound
| StatusReasonAlreadyExists
| StatusReasonConflict
| StatusReasonForbidden
| StatusReasonInternalError.

(** A Go [error] value that is not nil: an API status error with its
    reason, or any other error (the ones controllerutil builds). *)
Inductive error :=
| APIStatus (reason : StatusReason) (message : string)
| Plain (message : string).

Definition IsNotFound (err : option error) : bool :=
  match err with
  | Some (APIStatus StatusReasonNotFound _) => true
  | _ => false
  end.

#[global] Arguments IsNotFound : simpl never.

End errors.
Export errors.

(** What a client call leaves behind: the error, or the object as the
    call filled it in (client calls write the server's answer into the
    object they are given). *)
Inductive result (A : Type) :=
| Ok (a : A)
| Err (e : error).
Arguments Ok {A} a.
Arguments Err {A} e.

Definition err_of {A : Type} (r : result A) : option error :=
  match r with
  | Ok _ => None
  | Err e => Some e
  end.

(** ** apimachinery: object metadata *)

Module metav1.

(** [time.Time] as seconds and nanoseconds since the zero instant. *)
Record Time := { sec : Z; nsec : Z }.

(** [IsZero] on a [metav1.Time] pointer: nil, or the zero instant. *)
Definition IsZero (t : option Time) : bool :=
  match t with
  | None => true
  | Some t => (sec t =? 0) && (nsec t =? 0)
  end.

Record GroupVersion := { Group : string; Version : string }.

Record GroupVersionKind :=
  { gvkGroup : string; gvkVersion : string; gvkKind : string }.

Definition WithKind (gv : GroupVersion) (kind : string) : GroupVersionKind :=
  {| gvkGroup := Group gv; gvkVersion := Version gv; gvkKind := kind |}.

Definition GroupVersionOf (gvk : GroupVersionKind) : GroupVersion :=
  {| Group := gvkGroup gvk; Version := gvkVersion gvk |}.

(** The [APIVersion] of an owner reference is kept as the group and
    version it prints ("group/version"). *)
Record OwnerReference := {
  refAPIVersion : GroupVersion;
  refKind : string;
  refName : string;
  refUID : string;
  Controller : option bool;
  BlockOwnerDeletion : option bool
}.

Record ObjectMeta := {
  Name : string;
  Namespace : string;
  UID : string;
  ResourceVersion : string;
  Generation : Z;
  DeletionTimestamp : option Time;
  Labels : gmap string string;
  Annotations : gmap string string;
  OwnerReferences : list OwnerReference;
  Finalizers : list string
}.

(** The zero value, [metav1.ObjectMeta{}]. *)
Definition ObjectMeta0 : ObjectMeta :=
  {| Name := ""; Namespace := ""; UID := ""; ResourceVersion := "";
     Generation := 0; DeletionTimestamp := None; Labels := ∅;
     Annotations := ∅; OwnerReferences := []; Finalizers := [] |}.

Definition setOwnerReferences (refs : list OwnerReference) (m : ObjectMeta) : ObjectMeta :=
  {| Name := Name m; Namespace := Namespace m; UID := UID m;
     ResourceVersion := ResourceVersion m; Generation := Generation m;
     DeletionTimestamp := DeletionTimestamp m; Labels := Labels m;
     Annotations := Annotations m; OwnerReferences := refs;
     Finalizers := Finalizers m |}.

Definition setFinalizers (fs : list string) (m : ObjectMeta) : ObjectMeta :=
  {| Name := Name m; Namespace := Namespace m; UID := UID m;
     ResourceVersion := ResourceVersion m; Generation := Generation m;
     DeletionTimestamp := DeletionTimestamp m; Labels := Labels m;
     Annotations := Annotations m; OwnerReferences := OwnerReferences m;
     Finalizers := fs |}.

Record LabelSelector := { MatchLabels : gmap string string }.

(** [metav1.GetControllerOf]: the first owner reference whose
    [Controller] is a pointer to true. *)
Definition isController (r : OwnerReference) : bool :=
  match Controller r with
  | Some true => true
  | _ => false
  end.

Definition GetControllerOf (m : ObjectMeta) : option OwnerReference :=
  List.find isController (OwnerReferences m).

End metav1.
Export metav1.

Module types.
Record NamespacedName := { nnNamespace : string; nnName : string }.
End types.
Export types.

(** ** The resource kinds *)

Module corev1.
Record Container := { containerName : string; Image : string }.
Record PodSpec := { Containers : list Container }.
Record PodTemplateSpec := { templateMeta : ObjectMeta; templateSpec : PodSpec }.
End corev1.
Export corev1.

Module appsv1.

Record DeploymentSpec := {
  Replicas : option Z;
  Selector : option LabelSelector;
  Template : PodTemplateSpec;
  MinReadySeconds : Z;
  Paused : bool
}.

Record DeploymentStatus := {
  statusReplicas : Z;
  ReadyReplicas : Z;
  AvailableReplicas : Z
}.

Definition DeploymentStatus0 : DeploymentStatus :=
  {| statusReplicas := 0; ReadyReplicas := 0; AvailableReplicas := 0 |}.

Record Deployment := {
  deployMeta : ObjectMeta;
  Spec : DeploymentSpec;
  Status : DeploymentStatus
}.

(** [deploy.Spec.Replicas = r]: the assignment writes one field. *)
Definition setReplicas (r : option Z) (d : Deployment) : Deployment :=
  {| deployMeta := deployMeta d;
     Spec := {| Replicas := r;
                Selector := Selector (Spec d);
                Template := Template (Spec d);
                MinReadySeconds := MinReadySeconds (Spec d);
                Paused := Paused (Spec d) |};
     Status := Status d |}.

End appsv1.
Export appsv1.

(** The API types of this repository (package [appsv1alpha1]). *)
Module appsv1alpha1.

Definition GroupVersion : metav1.GroupVersion :=
  {| Group := "apps.myorg.io"; Version := "v1alpha1" |}.

Record CustomDeploymentSpec := { cdReplicas : Z }.

Record CustomDeploymentStatus := { cdAvailableReplicas : Z }.

Record CustomDeployment := {
  cdMeta : ObjectMeta;
  cdSpec : CustomDeploymentSpec;
  cdStatus : CustomDeploymentStatus
}.

(** [cd.Status.AvailableReplicas = n]. *)
Definition setAvailableReplicas (n : Z) (cd : CustomDeployment) : CustomDeployment :=
  {| cdMeta := cdMeta cd; cdSpec := cdSpec cd;
     cdStatus := {| cdAvailableReplicas := n |} |}.

End appsv1alpha1.
Export appsv1alpha1.

(** ** runtime.Scheme and the objects the client handles *)

Module runtime.

(** The Go types a scheme can be asked about. *)
Inductive GoType :=
| TCustomDeployment
| TCustomDeploymentList
| TDeployment
| TOther (name : string).

Definition typeName (t : GoType) : string :=
  match t with
  | TCustomDeployment => "CustomDeployment"
  | TCustomDeploymentList => "CustomDeploymentList"
  | TDeployment => "Deployment"
  | TOther n => n
  end.

#[global] Instance GoType_eq_dec : EqDecision GoType.
Proof. solve_decision. Defined.

#[global] Instance GroupVersionKind_eq_dec : EqDecision GroupVersionKind.
Proof. solve_decision. Defined.

(** The scheme's [typeToGVK] table, in registration order. *)
Record Scheme := { typeToGVK : list (GoType * GroupVersionKind) }.

Definition NewScheme : Scheme := {| typeToGVK := [] |}.

(** [AddKnownTypeWithName]: a pair already registered is not added
    again. *)
Definition AddKnownTypeWithName (gvk : GroupVersionKind) (t : GoType) (s : Scheme) : Scheme :=
  if bool_decide ((t, gvk) ∈ typeToGVK s) then s
  else {| typeToGVK := typeToGVK s ++ [(t, gvk)] |}.

(** [AddKnownTypes]: every type under the kind named after it. *)
Definition AddKnownTypes (gv : metav1.GroupVersion) (ts : list GoType) (s : Scheme) : Scheme :=
  foldl (fun s t => AddKnownTypeWithName (WithKind gv (typeName t)) t s) s ts.

Definition ObjectKinds (s : Scheme) (t : GoType) : list GroupVersionKind :=
  snd <$> filter (fun p => fst p = t) (typeToGVK s).

(** The objects of the two kinds behind [client.Object]. *)
Class Object (A : Type) := {
  goType : GoType;
  getMeta : A -> ObjectMeta;
  setMeta : ObjectMeta -> A -> A
}.

#[global] Instance CustomDeployment_Object : Object CustomDeployment := {
  goType := TCustomDeployment;
  getMeta := cdMeta;
  setMeta m cd := {| cdMeta := m; cdSpec := cdSpec cd; cdStatus := cdStatus cd |}
}.

#[global] Instance Deployment_Object : Object Deployment := {
  goType := TDeployment;
  getMeta := deployMeta;
  setMeta m d := {| deployMeta := m; Spec := Spec d; Status := Status d |}
}.

End runtime.
Export runtime.

(** [addKnownTypes] of package appsv1alpha1. *)
Definition addKnownTypes (scheme : Scheme) : Scheme :=
  AddKnownTypes appsv1alpha1.GroupVersion
    [TCustomDeployment; TCustomDeploymentList] scheme.

(** ** controller-runtime: apiutil and controllerutil *)

Module apiutil.

(** [GVKForObject]: the kind a scheme has for a Go type; an error when
    it has none or more than one. *)
Definition GVKForObject (t : GoType) (scheme : Scheme) : result GroupVersionKind :=
  match ObjectKinds scheme t with
  | [] => Err (Plain "no kind is registered for the type")
  | [gvk] => Ok gvk
  | _ => Err (Plain "multiple group-version-kinds associated with type")
  end.

End apiutil.

Module controllerutil.

Section finalizers.
Context {A : Type} `{Object A}.

Definition ContainsFinalizer (o : A) (finalizer : string) : bool :=
  existsb (String.eqb finalizer) (Finalizers (getMeta o)).

(** Returns whether the finalizers changed, and the object. *)
Definition AddFinalizer (o : A) (finalizer : string) : bool * A :=
  let f := Finalizers (getMeta o) in
  if existsb (String.eqb finalizer) f then (false, o)
  else (true, setMeta (setFinalizers (f ++ [finalizer]) (getMeta o)) o).

Definition RemoveFinalizer (o : A) (finalizer : string) : bool * A :=
  let f := Finalizers (getMeta o) in
  let kept := List.filter (fun e => negb (String.eqb e finalizer)) f in
  (negb (length f =? length kept)%nat,
   setMeta (setFinalizers kept (getMeta o)) o).
End finalizers.

Definition validateOwner (owner object : ObjectMeta) : option error :=
  let ownerNs := Namespace owner in
  if negb (String.eqb ownerNs "") then
    let objNs := Namespace object in
    if String.eqb objNs "" then
      Some (Plain "cluster-scoped resource must not have a namespace-scoped owner")
    else if negb (String.eqb ownerNs objNs) then
      Some (Plain "cross-namespace owner references are disallowed")
    else None
  else None.

Definition referSameObject (a b : OwnerReference) : bool :=
  String.eqb (Group (refAPIVersion a)) (Group (refAPIVersion b))
  && String.eqb (refKind a) (refKind b)
  && String.eqb (refName a) (refName b).

Fixpoint indexOwnerRef (ownerReferences : list OwnerReference) (ref : OwnerReference) : option nat :=
  match ownerReferences with
  | [] => None
  | r :: rest =>
      if referSameObject r ref then Some O
      else S <$> indexOwnerRef rest ref
  end.

Definition upsertOwnerRef (ref : OwnerReference) (object : ObjectMeta) : ObjectMeta :=
  let owners := OwnerReferences object in
  match indexOwnerRef owners ref with
  | None => setOwnerReferences (owners ++ [ref]) object
  | Some idx => setOwnerReferences (<[idx := ref]> owners) object
  end.

(** [SetControllerReference owner controlled scheme]: the error, or the
    controlled object with the controller reference set. *)
Definition SetControllerReference {A B : Type} `{Object A} `{Object B}
    (owner : A) (controlled : B) (scheme : Scheme) : result B :=
  match validateOwner (getMeta owner) (getMeta controlled) with
  | Some err => Err err
  | None =>
      match apiutil.GVKForObject (goType (A := A)) scheme with
      | Err err => Err err
      | Ok gvk =>
          let ref :=
            {| refAPIVersion := GroupVersionOf gvk;
               refKind := gvkKind gvk;
               refName := Name (getMeta owner);
               refUID := UID (getMeta owner);
               BlockOwnerDeletion := ptr.To true;
               Controller := ptr.To true |} in
          match GetControllerOf (getMeta controlled) with
          | Some existing =>
              if negb (referSameObject existing ref)
              then Err (Plain "Object is already owned by another controller")
              else Ok (setMeta (upsertOwnerRef ref (getMeta controlled)) controlled)
          | None => Ok (setMeta (upsertOwnerRef ref (getMeta controlled)) controlled)
          end
      end
  end.

End controllerutil.

(** ** The client *)

Module client.

(** [client.IgnoreNotFound]. *)
Definition IgnoreNotFound (err : option error) : option error :=
  if IsNotFound err then None else err.

(** [client.Client], at the two kinds the controller uses.  A call
    takes the client's state to the next one and answers with an error
    or with the object as the call left it. *)
Class Client (σ : Type) := {
  GetCustomDeployment : NamespacedName -> σ -> result CustomDeployment * σ;
  GetDeployment : NamespacedName -> σ -> result Deployment * σ;
  CreateDeployment : Deployment -> σ -> result Deployment * σ;
  UpdateDeployment : Deployment -> σ -> result Deployment * σ;
  DeleteDeployment : Deployment -> σ -> option error * σ;
  UpdateCustomDeployment : CustomDeployment -> σ -> result CustomDeployment * σ;
  StatusUpdateCustomDeployment : CustomDeployment -> σ -> result CustomDeployment * σ
}.

(** One client call with its answer. *)
Inductive Event :=
| EvGetCustomDeployment (key : NamespacedName) (r : result CustomDeployment)
| EvGetDeployment (key : NamespacedName) (r : result Deployment)
| EvCreateDeployment (d : Deployment) (r : result Deployment)
| EvUpdateDeployment (d : Deployment) (r : result Deployment)
| EvDeleteDeployment (d : Deployment) (r : option error)
| EvUpdateCustomDeployment (cd : CustomDeployment) (r : result CustomDeployment)
| EvStatusUpdateCustomDeployment (cd : CustomDeployment) (r : result CustomDeployment).

Definition isWrite (e : Event) : bool :=
  match e with
  | EvGetCustomDeployment _ _ | EvGetDeployment _ _ => false
  | _ => true
  end.

Definition isRead (e : Event) : bool := negb (isWrite e).

Definition writes (t : list Event) : list Event := List.filter isWrite t.
Definition reads (t : list Event) : list Event := List.filter isRead t.

Definition isCreate (e : Event) : bool :=
  match e with EvCreateDeployment _ _ => true | _ => false end.
(** The calls of the client's [Update] method, on either kind. *)
Definition isUpdate (e : Event) : bool :=
  match e with
  | EvUpdateDeployment _ _ | EvUpdateCustomDeployment _ _ => true
  | _ => false
  end.
Definition isStatusUpdate (e : Event) : bool :=
  match e with EvStatusUpdateCustomDeployment _ _ => true | _ => false end.

(** Computations that call the client: they thread its state and
    append to the trace of calls. *)
Definition M (σ A : Type) : Type := σ * list Event -> A * (σ * list Event).

Definition ret {σ A : Type} (a : A) : M σ A := fun w => (a, w).

Definition bind {σ A B : Type} (m : M σ A) (k : A -> M σ B) : M σ B :=
  fun w => let '(a, w') := m w in k a w'.

Definition call {σ A : Type} (op : σ -> A * σ) (ev : A -> Event) : M σ A :=
  fun w => let '(a, s') := op (fst w) in (a, (s', snd w ++ [ev a])).

(** A computation started on a client state with an empty trace. *)
Definition run {σ A : Type} (m : M σ A) (s : σ) : A * (σ * list Event) := m (s, []).

End client.
Export client.

Notation "x <<- m ;; k" := (bind m (fun x => k))
  (at level 100, m at next level, right associativity, only parsing).

Section calls.
Context {σ : Type} `{Client σ}.

Definition Get_CustomDeployment (key : NamespacedName) : M σ (result CustomDeployment) :=
  call (GetCustomDeployment key) (EvGetCustomDeployment key).
Definition Get_Deployment (key : NamespacedName) : M σ (result Deployment) :=
  call (GetDeployment key) (EvGetDeployment key).
Definition Create_Deployment (d : Deployment) : M σ (result Deployment) :=
  call (CreateDeployment d) (EvCreateDeployment d).
Definition Update_Deployment (d : Deployment) : M σ (result Deployment) :=
  call (UpdateDeployment d) (EvUpdateDeployment d).
Definition Delete_Deployment (d : Deployment) : M σ (option error) :=
  call (DeleteDeployment d) (EvDeleteDeployment d).
Definition Update_CustomDeployment (cd : CustomDeployment) : M σ (result CustomDeployment) :=
  call (UpdateCustomDeployment cd) (EvUpdateCustomDeployment cd).
Definition Status_Update (cd : CustomDeployment) : M σ (result CustomDeployment) :=
  call (StatusUpdateCustomDeployment cd) (EvStatusUpdateCustomDeployment cd).
End calls.

Module ctrl.
Record Request := { NamespacedName_ : NamespacedName }.
Record Result := { Requeue : bool; RequeueAfter : Z }.
(** [ctrl.Result{}]. *)
Definition Result0 : Result := {| Requeue := false; RequeueAfter := 0 |}.
End ctrl.
Export ctrl.

(** The controller struct: the embedded client and the scheme. *)
Record CustomDeploymentController (σ : Type) := {
  ctlClient : Client σ;
  Scheme_ : Scheme
}.
Arguments ctlClient {σ} _.
Arguments Scheme_ {σ} _.
(* the methods of the embedded client are called on the controller *)
Existing Class CustomDeploymentController.
#[global] Existing Instance ctlClient.

(** ** The finalizer-aware controller (internal/controller/controller.go)

    The logger calls of the source write log lines only; they are left
    out. *)

Module internal_controller.

Definition customDeploymentFinalizer : string := "apps.myorg.io/finalizer".

Definition desiredDeployment (cd : CustomDeployment) : Deployment :=
  let labels : gmap string string := {[ "app" := Name (cdMeta cd) ]} in
  {| deployMeta :=
       {| Name := Name (cdMeta cd);
          Namespace := Namespace (cdMeta cd);
          UID := ""; ResourceVersion := ""; Generation := 0;
          DeletionTimestamp := None;
          Labels := labels;
          Annotations := ∅; OwnerReferences := []; Finalizers := [] |};
     Spec :=
       {| Replicas := ptr.To (cdReplicas (cdSpec cd));
          Selector := Some {| MatchLabels := labels |};
          Template :=
            {| templateMeta :=
                 {| Name := ""; Namespace := ""; UID := "";
                    ResourceVersion := ""; Generation := 0;
                    DeletionTimestamp := None;
                    Labels := labels;
                    Annotations := ∅; OwnerReferences := [];
                    Finalizers := [] |};
               templateSpec :=
                 {| Containers :=
                      [ {| containerName := "app"; Image := "nginx:latest" |} ] |} |};
          MinReadySeconds := 0;
          Paused := false |};
     Status := DeploymentStatus0 |}.

Section controller.
Context {σ : Type} (c : CustomDeploymentController σ).

Definition handleCreateOrUpdate (cd : CustomDeployment) : M σ (option error) :=
  let deployName := Name (cdMeta cd) in
  r <<- Get_Deployment {| nnName := deployName; nnNamespace := Namespace (cdMeta cd) |} ;;
  (* the dependent after the create-or-update step, or the error the
     step returns with *)
  step <<-
    match r with
    | Err err =>
        if IsNotFound (Some err) then
          let deploy := desiredDeployment cd in
          match controllerutil.SetControllerReference cd deploy (Scheme_ c) with
          | Err err => ret (Err err)
          | Ok deploy => Create_Deployment deploy
          end
        else ret (Err err)
    | Ok deploy =>
        let '(deploy, updated) :=
          if match Replicas (Spec deploy) with
             | None => true
             | Some n => negb (n =? cdReplicas (cdSpec cd))
             end
          then (setReplicas (ptr.To (cdReplicas (cdSpec cd))) deploy, true)
          else (deploy, false) in
        if updated then Update_Deployment deploy else ret (Ok deploy)
    end ;;
  match step with
  | Err err => ret (Some err)
  | Ok deploy =>
      if negb (cdAvailableReplicas (cdStatus cd) =? AvailableReplicas (Status deploy)) then
        let cd := setAvailableReplicas (AvailableReplicas (Status deploy)) cd in
        r <<- Status_Update cd ;;
        ret (err_of r)
      else ret None
  end.

Definition handleDeletion (cd : CustomDeployment) : M σ (bool * option error) :=
  let key := {| nnName := Name (cdMeta cd); nnNamespace := Namespace (cdMeta cd) |} in
  r <<- Get_Deployment key ;;
  match r with
  | Err err =>
      if IsNotFound (Some err) then ret (true, None)
      else ret (false, Some err)
  | Ok deploy =>
      if IsZero (DeletionTimestamp (deployMeta deploy)) then
        err <<- Delete_Deployment deploy ;;
        if bool_decide (err ≠ None) && negb (IsNotFound err)
        then ret (false, err)
        else ret (false, None)
      else ret (false, None)
  end.

Definition Reconcile (req : Request) : M σ (Result * option error) :=
  r <<- Get_CustomDeployment (NamespacedName_ req) ;;
  match r with
  | Err err => ret (Result0, IgnoreNotFound (Some err))
  | Ok cd =>
      let createOrUpdate :=
        err <<- handleCreateOrUpdate cd ;;
        match err with
        | Some err => ret (Result0, Some err)
        | None => ret (Result0, None)
        end in
      if IsZero (DeletionTimestamp (cdMeta cd)) then
        if negb (controllerutil.ContainsFinalizer cd customDeploymentFinalizer) then
          let cd := snd (controllerutil.AddFinalizer cd customDeploymentFinalizer) in
          r <<- Update_CustomDeployment cd ;;
          match r with
          | Err err => ret (Result0, Some err)
          | Ok _ => ret (Result0, None)
          end
        else createOrUpdate
      else
        if controllerutil.ContainsFinalizer cd customDeploymentFinalizer then
          p <<- handleDeletion cd ;;
          let '(deleted, err) := p in
          match err with
          | Some err => ret (Result0, Some err)
          | None =>
              if deleted : bool then
                let cd := snd (controllerutil.RemoveFinalizer cd customDeploymentFinalizer) in
                r <<- Update_CustomDeployment cd ;;
                match r with
                | Err err => ret (Result0, Some err)
                | Ok _ => ret (Result0, None)
                end
              else ret (Result0, None)
          end
        else ret (Result0, None)
  end.
End controller.

End internal_controller.

(** ** The finalizer-free controller (controller/controller.go) *)

Module controller.

Definition desiredDeployment (cd : CustomDeployment) : Deployment :=
  let labels : gmap string string := {[ "app" := Name (cdMeta cd) ]} in
  {| deployMeta :=
       {| Name := Name (cdMeta cd);
          Namespace := Namespace (cdMeta cd);
          UID := ""; ResourceVersion := ""; Generation := 0;
          DeletionTimestamp := None;
          Labels := labels;
          Annotations := ∅; OwnerReferences := []; Finalizers := [] |};
     Spec :=
       {| Replicas := ptr.To (cdReplicas (cdSpec cd));
          Selector := Some {| MatchLabels := labels |};
          Template :=
            {| templateMeta :=
                 {| Name := ""; Namespace := ""; UID := "";
                    ResourceVersion := ""; Generation := 0;
                    DeletionTimestamp := None;
                    Labels := labels;
                    Annotations := ∅; OwnerReferences := [];
                    Finalizers := [] |};
               templateSpec :=
                 {| Containers :=
                      [ {| containerName := "app"; Image := "nginx:latest" |} ] |} |};
          MinReadySeconds := 0;
          Paused := false |};
     Status := DeploymentStatus0 |}.

Section controller.
Context {σ : Type} (c : CustomDeploymentController σ).

Definition Reconcile (req : Request) : M σ (Result * option error) :=
  r <<- Get_CustomDeployment (NamespacedName_ req) ;;
  match r with
  | Err err => ret (Result0, IgnoreNotFound (Some err))
  | Ok cd =>
      let deployName := Name (cdMeta cd) in
      r <<- Get_Deployment {| nnName := deployName; nnNamespace := Namespace (cdMeta cd) |} ;;
      step <<-
        match r with
        | Err err =>
            if IsNotFound (Some err) then
              let deploy := desiredDeployment cd in
              match controllerutil.SetControllerReference cd deploy (Scheme_ c) with
              | Err err => ret (Err err)
              | Ok deploy => Create_Deployment deploy
              end
            else ret (Err err)
        | Ok deploy =>
            let '(deploy, updated) :=
              if match Replicas (Spec deploy) with
                 | None => true
                 | Some n => negb (n =? cdReplicas (cdSpec cd))
                 end
              then (setReplicas (ptr.To (cdReplicas (cdSpec cd))) deploy, true)
              else (deploy, false) in
            if updated then Update_Deployment deploy else ret (Ok deploy)
        end ;;
      match step with
      | Err err => ret (Result0, Some err)
      | Ok deploy =>
          if negb (cdAvailableReplicas (cdStatus cd) =? AvailableReplicas (Status deploy)) then
            let cd := setAvailableReplicas (AvailableReplicas (Status deploy)) cd in
            r <<- Status_Update cd ;;
            match r with
            | Err err => ret (Result0, Some err)
            | Ok _ => ret (Result0, None)
            end
          else ret (Result0, None)
      end
  end.
End controller.

End controller.

(** ** A client over a cache and a server

    The client controller-runtime hands to a controller reads from the
    informer cache and writes to the API server; the cache catches up
    with the server between reconcile passes ([sync]), not within one.
    This in-memory client does the same, and serves as the concrete
    client of the examples below. *)

Module cached.

Record State := {
  cacheCustomDeployments : gmap (string * string) CustomDeployment;
  cacheDeployments : gmap (string * string) Deployment;
  serverCustomDeployments : gmap (string * string) CustomDeployment;
  serverDeployments : gmap (string * string) Deployment
}.

Definition keyOf (m : ObjectMeta) : string * string := (Namespace m, Name m).

Definition notFound : error := APIStatus StatusReasonNotFound "not found".
Definition alreadyExists : error := APIStatus StatusReasonAlreadyExists "already exists".

Definition withServerDeployments (ds : gmap (string * string) Deployment) (s : State) : State :=
  {| cacheCustomDeployments := cacheCustomDeployments s;
     cacheDeployments := cacheDeployments s;
     serverCustomDeployments := serverCustomDeployments s;
     serverDeployments := ds |}.

Definition withServerCustomDeployments (cds : gmap (string * string) CustomDeployment) (s : State) : State :=
  {| cacheCustomDeployments := cacheCustomDeployments s;
     cacheDeployments := cacheDeployments s;
     serverCustomDeployments := cds;
     serverDeployments := serverDeployments s |}.

(** The cache catches up with the server. *)
Definition sync (s : State) : State :=
  {| cacheCustomDeployments := serverCustomDeployments s;
     cacheDeployments := serverDeployments s;
     serverCustomDeployments := serverCustomDeployments s;
     serverDeployments := serverDeployments s |}.

Definition get {A : Type} (m : gmap (string * string) A) (key : NamespacedName) : result A :=
  match m !! (nnNamespace key, nnName key) with
  | Some a => Ok a
  | None => Err notFound
  end.

Definition putCustomDeployment (cd : CustomDeployment) (s : State) : result CustomDeployment * State :=
  match serverCustomDeployments s !! keyOf (cdMeta cd) with
  | None => (Err notFound, s)
  | Some _ =>
      (Ok cd, withServerCustomDeployments (<[keyOf (cdMeta cd) := cd]> (serverCustomDeployments s)) s)
  end.

#[global] Instance cached_client : Client State := {
  GetCustomDeployment key s := (get (cacheCustomDeployments s) key, s);
  GetDeployment key s := (get (cacheDeployments s) key, s);
  CreateDeployment d s :=
    match serverDeployments s !! keyOf (deployMeta d) with
    | Some _ => (Err alreadyExists, s)
    | None =>
        (Ok d, withServerDeployments (<[keyOf (deployMeta d) := d]> (serverDeployments s)) s)
    end;
  UpdateDeployment d s :=
    match serverDeployments s !! keyOf (deployMeta d) with
    | None => (Err notFound, s)
    | Some _ =>
        (Ok d, withServerDeployments (<[keyOf (deployMeta d) := d]> (serverDeployments s)) s)
    end;
  DeleteDeployment d s :=
    match serverDeployments s !! keyOf (deployMeta d) with
    | None => (Some notFound, s)
    | Some _ =>
        (None, withServerDeployments (delete (keyOf (deployMeta d)) (serverDeployments s)) s)
    end;
  UpdateCustomDeployment := putCustomDeployment;
  StatusUpdateCustomDeployment := putCustomDeployment
}.

(** A cache and server that both hold the given objects. *)
Definition stateOf (cds : list CustomDeployment) (ds : list Deployment) : State :=
  let cdm : gmap (string * string) CustomDeployment :=
    list_to_map ((fun cd => (keyOf (cdMeta cd), cd)) <$> cds) in
  let dm : gmap (string * string) Deployment :=
    list_to_map ((fun d => (keyOf (deployMeta d), d)) <$> ds) in
  {| cacheCustomDeployments := cdm; cacheDeployments := dm;
     serverCustomDeployments := cdm; serverDeployments := dm |}.

(** The controller as [main] wires it: this client, and a scheme that
    [addKnownTypes] has registered the API types in. *)
Definition reconciler : CustomDeploymentController State :=
  {| ctlClient := cached_client; Scheme_ := addKnownTypes NewScheme |}.

End cached.

(** ** Sample objects *)

Module samples.

Definition fooKey : NamespacedName := {| nnNamespace := "ns"; nnName := "foo" |}.
Definition fooReq : Request := {| NamespacedName_ := fooKey |}.

Definition fooMeta (finalizers : list string) (deletion : option Time) : ObjectMeta :=
  {| Name := "foo"; Namespace := "ns"; UID := "uid-foo";
     ResourceVersion := "7"; Generation := 1;
     DeletionTimestamp := deletion; Labels := ∅; Annotations := ∅;
     OwnerReferences := []; Finalizers := finalizers |}.

(** A CustomDeployment [ns/foo] asking for [replicas], with the given
    finalizers, deletion timestamp and published status. *)
Definition foo (finalizers : list string) (deletion : option Time)
    (replicas available : Z) : CustomDeployment :=
  {| cdMeta := fooMeta finalizers deletion;
     cdSpec := {| cdReplicas := replicas |};
     cdStatus := {| cdAvailableReplicas := available |} |}.

Definition someTime : Time := {| sec := 63900000000; nsec := 0 |}.

(** A Deployment [ns/foo] as a server would hold it, with fields the
    controller never sets. *)
Definition fooDeployment (replicas : option Z) (available : Z)
    (deletion : option Time) : Deployment :=
  {| deployMeta :=
       {| Name := "foo"; Namespace := "ns"; UID := "uid-deploy";
          ResourceVersion := "12"; Generation := 3;
          DeletionTimestamp := deletion;
          Labels := {[ "app" := "foo" ]};
          Annotations := {[ "team" := "payments" ]};
          OwnerReferences := []; Finalizers := [] |};
     Spec :=
       {| Replicas := replicas;
          Selector := Some {| MatchLabels := {[ "app" := "foo" ]} |};
          Template :=
            {| templateMeta := ObjectMeta0;
               templateSpec :=
                 {| Containers := [ {| containerName := "app"; Image := "nginx:1.25" |} ] |} |};
          MinReadySeconds := 10;
          Paused := true |};
     Status :=
       {| statusReplicas := available; ReadyReplicas := available;
          AvailableReplicas := available |} |}.

Definition fin : string := internal_controller.customDeploymentFinalizer.

End samples.

(** ** What the claims speak of *)

(** The dependent as a reconcile pass last observed it: the answer of
    the last Get, Create or Update of the Deployment in the trace, when
    that call succeeded. *)
Fixpoint observedDeployment (t : list Event) (seen : option Deployment) : option Deployment :=
  match t with
  | [] => seen
  | EvGetDeployment _ r :: t'
  | EvCreateDeployment _ r :: t'
  | EvUpdateDeployment _ r :: t' =>
      observedDeployment t' (match r with Ok d => Some d | Err _ => None end)
  | _ :: t' => observedDeployment t' seen
  end.

(** The error a client call answered with, if it did. *)
Definition failedWith (ev : Event) : option error :=
  match ev with
  | EvGetCustomDeployment _ r
  | EvUpdateCustomDeployment _ r
  | EvStatusUpdateCustomDeployment _ r => err_of r
  | EvGetDeployment _ r
  | EvCreateDeployment _ r
  | EvUpdateDeployment _ r => err_of r
  | EvDeleteDeployment _ r => r
  end.

(** The controller reference [SetControllerReference] builds for a
    CustomDeployment registered under [gvk]. *)
Definition controllerRef (cd : CustomDeployment) (gvk : GroupVersionKind) : OwnerReference :=
  {| refAPIVersion := GroupVersionOf gvk;
     refKind := gvkKind gvk;
     refName := Name (cdMeta cd);
     refUID := UID (cdMeta cd);
     BlockOwnerDeletion := Some true;
     Controller := Some true |}.

(** A label selector selects the pods that carry each of its pairs. *)
Definition selects (sel : LabelSelector) (podLabels : gmap string string) : Prop :=
  forall k v, MatchLabels sel !! k = Some v -> podLabels !! k = Some v.

(** The trace of a reconcile pass of the finalizer-aware controller. *)
Definition traceOf {σ : Type} (c : CustomDeploymentController σ) (req : Request) (s : σ) : list Event :=
  snd (snd (run (internal_controller.Reconcile c req) s)).

(** The client state a reconcile pass leaves. *)
Definition stateAfter {σ : Type} (c : CustomDeploymentController σ) (req : Request) (s : σ) : σ :=
  fst (snd (run (internal_controller.Reconcile c req) s)).

(** Two passes in succession, the second reading what the first read:
    the second pass writes nothing. *)
Definition second_pass_writes_nothing {σ : Type} (c : CustomDeploymentController σ)
    (req : Request) (s : σ) : Prop :=
  reads (traceOf c req (stateAfter c req s)) = reads (traceOf c req s) ->
  writes (traceOf c req (stateAfter c req s)) = [].

(** Kinds of call, to count them in a trace. *)
Definition isDelete (e : Event) : bool :=
  match e with EvDeleteDeployment _ _ => true | _ => false end.

Definition isParentRead (e : Event) : bool :=
  match e with EvGetCustomDeployment _ _ => true | _ => false end.

Definition isParentUpdate (e : Event) : bool :=
  match e with EvUpdateCustomDeployment _ _ => true | _ => false end.

(** The calls that write the Deployment's spec: Create and Update. *)
Definition isDependentWrite (e : Event) : bool :=
  match e with
  | EvCreateDeployment _ _ | EvUpdateDeployment _ _ => true
  | _ => false
  end.

(** The trace of a pass of the finalizer-free controller. *)
Definition plainTraceOf {σ : Type} (c : CustomDeploymentController σ) (req : Request) (s : σ) : list Event :=
  snd (snd (run (controller.Reconcile c req) s)).

(** The Deployment is as the CustomDeployment wants it and its
    availability is published: the pass has nothing to write. *)
Definition converged (cd : CustomDeployment) (d : Deployment) : Prop :=
  Replicas (Spec d) = Some (cdReplicas (cdSpec cd))
  /\ cdAvailableReplicas (cdStatus cd) = AvailableReplicas (Status d).

(** ** The ConfigMap-to-Secret controller (simple/main.go)

    Its client handles ConfigMaps and Secrets; the calls and their trace
    are modelled as for the CustomDeployment controller.  Logger calls
    are left out. *)

Module simple.

Record ConfigMap := {
  cmMeta : ObjectMeta;
  Data : gmap string string;
  BinaryData : gmap string string
}.

Record Secret := {
  secretMeta : ObjectMeta;
  Immutable : option bool;
  secretData : gmap string string;
  StringData : gmap string string;
  secretType : string
}.

#[global] Instance ConfigMap_Object : Object ConfigMap := {
  goType := TOther "ConfigMap";
  getMeta := cmMeta;
  setMeta m cm := {| cmMeta := m; Data := Data cm; BinaryData := BinaryData cm |}
}.

#[global] Instance Secret_Object : Object Secret := {
  goType := TOther "Secret";
  getMeta := secretMeta;
  setMeta m sec :=
    {| secretMeta := m; Immutable := Immutable sec; secretData := secretData sec;
       StringData := StringData sec; secretType := secretType sec |}
}.

(** [existingSecret.StringData = data]. *)
Definition setStringData (data : gmap string string) (sec : Secret) : Secret :=
  {| secretMeta := secretMeta sec; Immutable := Immutable sec;
     secretData := secretData sec; StringData := data;
     secretType := secretType sec |}.

(** [existingSecret.Labels = labels]. *)
Definition setLabels (labels : gmap string string) (sec : Secret) : Secret :=
  setMeta
    {| Name := Name (secretMeta sec); Namespace := Namespace (secretMeta sec);
       UID := UID (secretMeta sec);
       ResourceVersion := ResourceVersion (secretMeta sec);
       Generation := Generation (secretMeta sec);
       DeletionTimestamp := DeletionTimestamp (secretMeta sec);
       Labels := labels;
       Annotations := Annotations (secretMeta sec);
       OwnerReferences := OwnerReferences (secretMeta sec);
       Finalizers := Finalizers (secretMeta sec) |}
    sec.

Class Client (σ : Type) := {
  GetConfigMap : NamespacedName -> σ -> result ConfigMap * σ;
  GetSecret : NamespacedName -> σ -> result Secret * σ;
  CreateSecret : Secret -> σ -> result Secret * σ;
  UpdateSecret : Secret -> σ -> result Secret * σ;
  DeleteSecret : Secret -> σ -> option error * σ
}.

Inductive Event :=
| EvGetConfigMap (key : NamespacedName) (r : result ConfigMap)
| EvGetSecret (key : NamespacedName) (r : result Secret)
| EvCreateSecret (sec : Secret) (r : result Secret)
| EvUpdateSecret (sec : Secret) (r : result Secret)
| EvDeleteSecret (sec : Secret) (r : option error).

Definition isWrite (e : Event) : bool :=
  match e with
  | EvGetConfigMap _ _ | EvGetSecret _ _ => false
  | _ => true
  end.

Definition M (σ A : Type) : Type := σ * list Event -> A * (σ * list Event).

Definition ret {σ A : Type} (a : A) : M σ A := fun w => (a, w).

Definition bind {σ A B : Type} (m : M σ A) (k : A -> M σ B) : M σ B :=
  fun w => let '(a, w') := m w in k a w'.

Definition call {σ A : Type} (op : σ -> A * σ) (ev : A -> Event) : M σ A :=
  fun w => let '(a, s') := op (fst w) in (a, (s', snd w ++ [ev a])).

Definition run {σ A : Type} (m : M σ A) (s : σ) : A * (σ * list Event) := m (s, []).

Notation "x <~ m ;; k" := (bind m (fun x => k))
  (at level 100, m at next level, right associativity, only parsing).

(** The annotation that asks for the sync. *)
Definition syncAnnotation : string := "simple-controller/sync-to-secret".

Record ConfigMapReconciler (σ : Type) := {
  rClient : Client σ;
  rScheme : Scheme
}.
Arguments rClient {σ} _.
Arguments rScheme {σ} _.
Existing Class ConfigMapReconciler.
#[global] Existing Instance rClient.

(** The Secret the controller builds for a ConfigMap, before the
    controller reference is set. *)
Definition secretFor (configMap : ConfigMap) : Secret :=
  let secretName := String.append (Name (cmMeta configMap)) "-synced" in
  {| secretMeta :=
       {| Name := secretName;
          Namespace := Namespace (cmMeta configMap);
          UID := ""; ResourceVersion := ""; Generation := 0;
          DeletionTimestamp := None;
          Labels :=
            <["app.kubernetes.io/managed-by" := "simple-controller"]>
              {[ "app.kubernetes.io/source" := Name (cmMeta configMap) ]};
          Annotations := ∅; OwnerReferences := []; Finalizers := [] |};
     Immutable := None;
     secretData := ∅;
     StringData := Data configMap;
     secretType := "" |}.

Section controller.
Context {σ : Type} (r : ConfigMapReconciler σ).

Definition Reconcile (req : Request) : M σ (Result * option error) :=
  got <~ call (GetConfigMap (NamespacedName_ req)) (EvGetConfigMap (NamespacedName_ req)) ;;
  match got with
  | Err err =>
      if IsNotFound (Some err) then
        let secret :=
          {| secretMeta :=
               {| Name := String.append (nnName (NamespacedName_ req)) "-synced";
                  Namespace := nnNamespace (NamespacedName_ req);
                  UID := ""; ResourceVersion := ""; Generation := 0;
                  DeletionTimestamp := None; Labels := ∅;
                  Annotations := ∅; OwnerReferences := []; Finalizers := [] |};
             Immutable := None; secretData := ∅; StringData := ∅;
             secretType := "" |} in
        err <~ call (DeleteSecret secret) (EvDeleteSecret secret) ;;
        if bool_decide (err ≠ None) && negb (IsNotFound err)
        then ret (Result0, err)
        else ret (Result0, None)
      else ret (Result0, Some err)
  | Ok configMap =>
      match Annotations (cmMeta configMap) !! syncAnnotation with
      | None => ret (Result0, None)
      | Some _ =>
          let secretName := String.append (Name (cmMeta configMap)) "-synced" in
          let secret := secretFor configMap in
          match controllerutil.SetControllerReference configMap secret (rScheme r) with
          | Err err => ret (Result0, Some err)
          | Ok secret =>
              let key := {| nnName := secretName;
                            nnNamespace := Namespace (cmMeta configMap) |} in
              got <~ call (GetSecret key) (EvGetSecret key) ;;
              match got with
              | Err err =>
                  if IsNotFound (Some err) then
                    created <~ call (CreateSecret secret) (EvCreateSecret secret) ;;
                    match created with
                    | Err err => ret (Result0, Some err)
                    | Ok _ => ret (Result0, None)
                    end
                  else ret (Result0, Some err)
              | Ok existingSecret =>
                  let existingSecret := setStringData (Data configMap) existingSecret in
                  let existingSecret :=
                    setLabels (Labels (secretMeta secret)) existingSecret in
                  updated <~ call (UpdateSecret existingSecret) (EvUpdateSecret existingSecret) ;;
                  match updated with
                  | Err err => ret (Result0, Some err)
                  | Ok _ => ret (Result0, None)
                  end
              end
          end
      end
  end.
End controller.

Definition traceOf {σ : Type} (r : ConfigMapReconciler σ) (req : Request) (s : σ) : list Event :=
  snd (snd (run (Reconcile r req) s)).

(** The controller reference for a ConfigMap registered under [gvk]. *)
Definition ownerRef (configMap : ConfigMap) (gvk : GroupVersionKind) : OwnerReference :=
  {| refAPIVersion := GroupVersionOf gvk;
     refKind := gvkKind gvk;
     refName := Name (cmMeta configMap);
     refUID := UID (cmMeta configMap);
     BlockOwnerDeletion := Some true;
     Controller := Some true |}.

(** An in-memory client: reads and writes go to the same store. *)
Record Store := {
  configMaps : gmap (string * string) ConfigMap;
  secrets : gmap (string * string) Secret
}.

Definition withSecrets (secs : gmap (string * string) Secret) (s : Store) : Store :=
  {| configMaps := configMaps s; secrets := secs |}.

#[global] Instance store_client : Client Store := {
  GetConfigMap key s := (cached.get (configMaps s) key, s);
  GetSecret key s := (cached.get (secrets s) key, s);
  CreateSecret sec s :=
    match secrets s !! cached.keyOf (secretMeta sec) with
    | Some _ => (Err cached.alreadyExists, s)
    | None => (Ok sec, withSecrets (<[cached.keyOf (secretMeta sec) := sec]> (secrets s)) s)
    end;
  UpdateSecret sec s :=
    match secrets s !! cached.keyOf (secretMeta sec) with
    | None => (Err cached.notFound, s)
    | Some _ => (Ok sec, withSecrets (<[cached.keyOf (secretMeta sec) := sec]> (secrets s)) s)
    end;
  DeleteSecret sec s :=
    match secrets s !! cached.keyOf (secretMeta sec) with
    | None => (Some cached.notFound, s)
    | Some _ => (None, withSecrets (delete (cached.keyOf (secretMeta sec)) (secrets s)) s)
    end
}.

Definition storeOf (cms : list ConfigMap) (secs : list Secret) : Store :=
  {| configMaps := list_to_map ((fun cm => (cached.keyOf (cmMeta cm), cm)) <$> cms);
     secrets := list_to_map ((fun sec => (cached.keyOf (secretMeta sec), sec)) <$> secs) |}.

(** A scheme with the core kinds the controller meets. *)
Definition coreScheme : Scheme :=
  AddKnownTypes {| Group := ""; Version := "v1" |}
    [TOther "ConfigMap"; TOther "Secret"] NewScheme.

Definition reconciler : ConfigMapReconciler Store :=
  {| rClient := store_client; rScheme := coreScheme |}.

(** Sample objects: a ConfigMap [default/my-app-config] and a Secret
    under the synced name that someone else has filled in. *)
Definition sampleKey : NamespacedName :=
  {| nnNamespace := "default"; nnName := "my-app-config" |}.
Definition sampleReq : Request := {| NamespacedName_ := sampleKey |}.

Definition sampleConfigMap (annotations : gmap string string) : ConfigMap :=
  {| cmMeta :=
       {| Name := "my-app-config"; Namespace := "default"; UID := "uid-cm";
          ResourceVersion := "3"; Generation := 1; DeletionTimestamp := None;
          Labels := ∅; Annotations := annotations;
          OwnerReferences := []; Finalizers := [] |};
     Data := {[ "DB_HOST" := "db.local" ]};
     BinaryData := ∅ |}.

Definition sampleSecret : Secret :=
  {| secretMeta :=
       {| Name := "my-app-config-synced"; Namespace := "default";
          UID := "uid-secret"; ResourceVersion := "9"; Generation := 0;
          DeletionTimestamp := None;
          Labels := {[ "stale" := "yes" ]};
          Annotations := {[ "note" := "hand-made" ]};
          OwnerReferences := []; Finalizers := ["keep"] |};
     Immutable := Some false;
     secretData := {[ "TOKEN" := "abc" ]};
     StringData := {[ "DB_HOST" := "old" ]};
     secretType := "Opaque" |}.

End simple.

(** ** Trying the model on small inputs *)

Example try_add_finalizer :
  let cd := samples.foo [] None 5 0 in
  run (internal_controller.Reconcile cached.reconciler samples.fooReq)
      (cached.stateOf [cd] [])
  = let cd' := samples.foo [samples.fin] None 5 0 in
    ((Result0, None),
     (cached.withServerCustomDeployments {[ ("ns", "foo") := cd' ]} (cached.stateOf [cd] []),
      [EvGetCustomDeployment samples.fooKey (Ok cd);
       EvUpdateCustomDeployment cd' (Ok cd')])).
Proof. vm_compute. reflexivity. Qed.

Example try_create :
  let cd := samples.foo [samples.fin] None 5 0 in
  writes (traceOf cached.reconciler samples.fooReq (cached.stateOf [cd] []))
  = let d :=
      setMeta
        (setOwnerReferences
           [ {| refAPIVersion := appsv1alpha1.GroupVersion;
                refKind := "CustomDeployment"; refName := "foo";
                refUID := "uid-foo"; Controller := Some true;
                BlockOwnerDeletion := Some true |} ]
           (deployMeta (internal_controller.desiredDeployment cd)))
        (internal_controller.desiredDeployment cd) in
    [EvCreateDeployment d (Ok d)].
Proof. vm_compute. reflexivity. Qed.

Example try_scale :
  let cd := samples.foo [samples.fin] None 5 2 in
  let d := samples.fooDeployment (Some 3) 2 None in
  writes (traceOf cached.reconciler samples.fooReq (cached.stateOf [cd] [d]))
  = [EvUpdateDeployment (samples.fooDeployment (Some 5) 2 None)
       (Ok (samples.fooDeployment (Some 5) 2 None))].
Proof. vm_compute. reflexivity. Qed.

Example try_teardown :
  let cd := samples.foo [samples.fin] (Some samples.someTime) 5 2 in
  let d := samples.fooDeployment (Some 5) 2 None in
  writes (traceOf cached.reconciler samples.fooReq (cached.stateOf [cd] [d]))
  = [EvDeleteDeployment d None].
Proof. vm_compute. reflexivity. Qed.

(** ** Facts about the library functions *)

Section library.
Context {A : Type} `{Object A}.

Lemma existsb_eqb_elem (f : string) (fs : list string) :
  existsb (String.eqb f) fs = true <-> f ∈ fs.
Proof.
  rewrite existsb_exists. split.
  - intros (x & Hin & Heq). apply String.eqb_eq in Heq. subst.
    by apply list_elem_of_In.
  - intros Hin. exists f. split; [by apply list_elem_of_In | apply String.eqb_refl].
Qed.

Lemma ContainsFinalizer_elem (o : A) (f : string) :
  controllerutil.ContainsFinalizer o f = true <-> f ∈ Finalizers (getMeta o).
Proof. apply existsb_eqb_elem. Qed.

Lemma filter_drops (f : string) (fs : list string) :
  f ∉ List.filter (fun e => negb (String.eqb e f)) fs.
Proof.
  rewrite list_elem_of_In, filter_In. intros [_ Hneq].
  by rewrite String.eqb_refl in Hneq.
Qed.
End library.

Lemma AddFinalizer_absent (cd : CustomDeployment) (f : string) :
  controllerutil.ContainsFinalizer cd f = false ->
  snd (controllerutil.AddFinalizer cd f)
  = setMeta (setFinalizers (Finalizers (cdMeta cd) ++ [f]) (cdMeta cd)) cd.
Proof.
  unfold controllerutil.ContainsFinalizer, controllerutil.AddFinalizer.
  simpl. by intros ->.
Qed.

Lemma RemoveFinalizer_removes (cd : CustomDeployment) (f : string) :
  controllerutil.ContainsFinalizer (snd (controllerutil.RemoveFinalizer cd f)) f = false.
Proof.
  apply not_true_is_false. rewrite ContainsFinalizer_elem. simpl.
  apply filter_drops.
Qed.

(** Unfolding a pass down to the client's transition functions. *)
Ltac unfold_pass :=
  unfold traceOf, stateAfter, run,
    internal_controller.Reconcile, controller.Reconcile,
    internal_controller.handleCreateOrUpdate, internal_controller.handleDeletion,
    Get_CustomDeployment, Get_Deployment, Create_Deployment, Update_Deployment,
    Delete_Deployment, Update_CustomDeployment, Status_Update,
    bind, call, ret in *;
  simpl fst in *; simpl snd in *.

(** Case analysis on the answers of the client and on the tests of a
    pass, in the order the pass meets them. *)
Ltac crunch :=
  repeat (cbn;
    match goal with
    | |- context [GetCustomDeployment ?k ?s] =>
        is_var s; destruct (GetCustomDeployment k s) as [[?|?] ?] eqn:?
    | |- context [GetDeployment ?k ?s] =>
        is_var s; destruct (GetDeployment k s) as [[?|?] ?] eqn:?
    | |- context [CreateDeployment ?d ?s] =>
        is_var s; destruct (CreateDeployment d s) as [[?|?] ?] eqn:?
    | |- context [UpdateDeployment ?d ?s] =>
        is_var s; destruct (UpdateDeployment d s) as [[?|?] ?] eqn:?
    | |- context [DeleteDeployment ?d ?s] =>
        is_var s; destruct (DeleteDeployment d s) as [[?|] ?] eqn:?
    | |- context [UpdateCustomDeployment ?d ?s] =>
        is_var s; destruct (UpdateCustomDeployment d s) as [[?|?] ?] eqn:?
    | |- context [StatusUpdateCustomDeployment ?d ?s] =>
        is_var s; destruct (StatusUpdateCustomDeployment d s) as [[?|?] ?] eqn:?
    | |- context [IsZero ?t] => destruct (IsZero t) eqn:?
    | |- context [controllerutil.ContainsFinalizer ?o ?f] =>
        destruct (controllerutil.ContainsFinalizer o f) eqn:?
    | |- context [IsNotFound ?e] => destruct (IsNotFound e) eqn:?
    | |- context [controllerutil.SetControllerReference ?a ?b ?sch] =>
        destruct (controllerutil.SetControllerReference a b sch) eqn:?
    | |- context [match Replicas ?x with _ => _ end] =>
        destruct (Replicas x) eqn:?
    | |- context [Z.eqb ?a ?b] => destruct (Z.eqb a b) eqn:?
    end).

(** [SetControllerReference] on the desired Deployment of a
    CustomDeployment: it fails only when the scheme has no single kind
    for the CustomDeployment type. *)
Lemma validateOwner_same_namespace (owner object : ObjectMeta) :
  Namespace object = Namespace owner ->
  controllerutil.validateOwner owner object = None.
Proof.
  intros Hns. unfold controllerutil.validateOwner. rewrite Hns.
  destruct (String.eqb (Namespace owner) "") eqn:Hempty; cbn; [done|].
  by rewrite ?Hempty, String.eqb_refl.
Qed.

Lemma SetControllerReference_desired (cd : CustomDeployment) (scheme : Scheme) :
  controllerutil.SetControllerReference cd (internal_controller.desiredDeployment cd) scheme
  = match apiutil.GVKForObject TCustomDeployment scheme with
    | Err err => Err err
    | Ok gvk =>
        Ok (setMeta
              (setOwnerReferences [controllerRef cd gvk]
                 (deployMeta (internal_controller.desiredDeployment cd)))
              (internal_controller.desiredDeployment cd))
    end.
Proof.
  unfold controllerutil.SetControllerReference.
  rewrite validateOwner_same_namespace by done.
  cbn. by destruct (apiutil.GVKForObject _ _).
Qed.

(** Membership of an event in an explicit trace, case by case. *)
Ltac trace_cases H :=
  repeat (apply elem_of_cons in H as [H|H]);
  try (apply elem_of_nil in H; contradiction);
  try discriminate H.

(** ** The claims *)

Section claims.
Context {σ : Type} (c : CustomDeploymentController σ).

Abbreviation fin := internal_controller.customDeploymentFinalizer.
Abbreviation Reconcile := (internal_controller.Reconcile c).
Abbreviation dependentKey cd :=
  {| nnNamespace := Namespace (cdMeta cd); nnName := Name (cdMeta cd) |}.

(** C5.  A CustomDeployment not being deleted and without the
    controller's token: the pass appends the token, persists the parent
    with one Update, and calls the client for nothing else (the trace
    holds the read of the parent and that Update only); it returns the
    Update's error. *)
Theorem active_without_finalizer_only_adds_it (req : Request) (s s1 : σ) (cd : CustomDeployment) :
  GetCustomDeployment (NamespacedName_ req) s = (Ok cd, s1) ->
  IsZero (DeletionTimestamp (cdMeta cd)) = true ->
  controllerutil.ContainsFinalizer cd fin = false ->
  let cd' := setMeta (setFinalizers (Finalizers (cdMeta cd) ++ [fin]) (cdMeta cd)) cd in
  run (Reconcile req) s =
    let '(r, s2) := UpdateCustomDeployment cd' s1 in
    ((Result0, err_of r),
     (s2, [EvGetCustomDeployment (NamespacedName_ req) (Ok cd);
           EvUpdateCustomDeployment cd' r])).
Proof.
  intros Hget Hzero Hfin cd'.
  unfold_pass. rewrite Hget, Hzero, Hfin. cbn [negb fst snd].
  rewrite (AddFinalizer_absent cd fin Hfin). fold cd'.
  destruct (UpdateCustomDeployment cd' s1) as [[cd2|e] s2]; reflexivity.
Qed.

(** C6.  A CustomDeployment being deleted and without the controller's
    token: the pass is over after the read of the parent; it returns
    the empty result and no error, and the client is not called
    again. *)
Theorem deleting_without_finalizer_is_terminal (req : Request) (s s1 : σ) (cd : CustomDeployment) :
  GetCustomDeployment (NamespacedName_ req) s = (Ok cd, s1) ->
  IsZero (DeletionTimestamp (cdMeta cd)) = false ->
  controllerutil.ContainsFinalizer cd fin = false ->
  run (Reconcile req) s =
    ((Result0, None),
     (s1, [EvGetCustomDeployment (NamespacedName_ req) (Ok cd)])).
Proof.
  intros Hget Hzero Hfin.
  unfold_pass. by rewrite Hget, Hzero, Hfin.
Qed.

(** C4.  A CustomDeployment not being deleted, with the token, whose
    Deployment exists: when the Deployment's replica count is not the
    desired one, the pass issues exactly one Update of the Deployment,
    and the object it sends differs from the one it read in
    [Spec.Replicas] only; when the counts agree it issues none. *)
Theorem drift_updates_replicas_only (req : Request) (s s1 s2 : σ)
    (cd : CustomDeployment) (d : Deployment) :
  GetCustomDeployment (NamespacedName_ req) s = (Ok cd, s1) ->
  IsZero (DeletionTimestamp (cdMeta cd)) = true ->
  controllerutil.ContainsFinalizer cd fin = true ->
  GetDeployment (dependentKey cd) s1 = (Ok d, s2) ->
  (Replicas (Spec d) <> Some (cdReplicas (cdSpec cd)) ->
     exists d',
       List.filter isUpdate (traceOf c req s)
         = [EvUpdateDeployment d' (fst (UpdateDeployment d' s2))]
       /\ Replicas (Spec d') = Some (cdReplicas (cdSpec cd))
       /\ deployMeta d' = deployMeta d
       /\ Status d' = Status d
       /\ Selector (Spec d') = Selector (Spec d)
       /\ Template (Spec d') = Template (Spec d)
       /\ MinReadySeconds (Spec d') = MinReadySeconds (Spec d)
       /\ Paused (Spec d') = Paused (Spec d))
  /\ (Replicas (Spec d) = Some (cdReplicas (cdSpec cd)) ->
       List.filter isUpdate (traceOf c req s) = []).
Proof.
  intros Hget Hzero Hfin Hdep.
  unfold_pass. rewrite Hget, Hzero, Hfin. cbn [negb fst snd].
  rewrite Hdep. cbn [fst snd]. split.
  - intros Hdrift.
    exists (setReplicas (Some (cdReplicas (cdSpec cd))) d).
    split; [|done].
    assert (match Replicas (Spec d) with
            | Some n => negb (n =? cdReplicas (cdSpec cd))
            | None => true
            end = true) as ->.
    { destruct (Replicas (Spec d)) as [n|]; [|done].
      apply negb_true_iff, Z.eqb_neq. congruence. }
    unfold ptr.To. cbn.
    destruct (UpdateDeployment _ s2) as [[d2|e] s3]; cbn; [|done].
    destruct (negb _); cbn; [|done].
    by destruct (StatusUpdateCustomDeployment _ s3) as [[cd2|e3] s4].
  - intros ->. rewrite Z.eqb_refl. cbn.
    destruct (negb _); cbn; [|done].
    by destruct (StatusUpdateCustomDeployment _ s2) as [[cd2|e3] s4].
Qed.

(** C3.  A CustomDeployment not being deleted, with the token, whose
    Deployment is not found, under a scheme that knows the
    CustomDeployment kind: the pass issues exactly one Create, of a
    Deployment named after the CustomDeployment whose only owner
    reference has Controller set to true and names the CustomDeployment
    (kind, name and UID), and whose [Spec.Replicas] is the
    CustomDeployment's. *)
Theorem missing_dependent_is_created (req : Request) (s s1 s2 : σ)
    (cd : CustomDeployment) (e : error) (gvk : GroupVersionKind) :
  GetCustomDeployment (NamespacedName_ req) s = (Ok cd, s1) ->
  IsZero (DeletionTimestamp (cdMeta cd)) = true ->
  controllerutil.ContainsFinalizer cd fin = true ->
  GetDeployment (dependentKey cd) s1 = (Err e, s2) ->
  IsNotFound (Some e) = true ->
  apiutil.GVKForObject TCustomDeployment (Scheme_ c) = Ok gvk ->
  exists d ref,
    List.filter isCreate (traceOf c req s)
      = [EvCreateDeployment d (fst (CreateDeployment d s2))]
    /\ OwnerReferences (deployMeta d) = [ref]
    /\ Controller ref = Some true
    /\ refAPIVersion ref = GroupVersionOf gvk
    /\ refKind ref = gvkKind gvk
    /\ refName ref = Name (cdMeta cd)
    /\ refUID ref = UID (cdMeta cd)
    /\ Name (deployMeta d) = Name (cdMeta cd)
    /\ Namespace (deployMeta d) = Namespace (cdMeta cd)
    /\ Replicas (Spec d) = Some (cdReplicas (cdSpec cd)).
Proof.
  intros Hget Hzero Hfin Hdep Hnf Hgvk.
  exists (setMeta
            (setOwnerReferences [controllerRef cd gvk]
               (deployMeta (internal_controller.desiredDeployment cd)))
            (internal_controller.desiredDeployment cd)), (controllerRef cd gvk).
  split; [|done].
  unfold_pass. rewrite Hget, Hzero, Hfin. cbn [negb fst snd].
  rewrite Hdep. cbn [fst snd]. rewrite Hnf.
  rewrite SetControllerReference_desired, Hgvk.
  cbn.
  destruct (CreateDeployment _ s2) as [[d2|e2] s3]; cbn; [|done].
  destruct (negb _); cbn; [|done].
  by destruct (StatusUpdateCustomDeployment _ s3) as [[cd2|e3] s4].
Qed.

(** C2.  A CustomDeployment being deleted that carries the token.  An
    Update of the parent appears in the pass only when the read of the
    Deployment answered not-found, and what it persists is the parent
    without the token.  And when that read answers not-found, the pass
    persists the parent without the token right away and returns the
    persist call's error: none once the removal is persisted. *)
Theorem finalizer_removed_only_after_teardown (req : Request) (s s1 : σ) (cd : CustomDeployment) :
  GetCustomDeployment (NamespacedName_ req) s = (Ok cd, s1) ->
  IsZero (DeletionTimestamp (cdMeta cd)) = false ->
  controllerutil.ContainsFinalizer cd fin = true ->
  let cd' := snd (controllerutil.RemoveFinalizer cd fin) in
  controllerutil.ContainsFinalizer cd' fin = false
  /\ (forall cd2 r,
        EvUpdateCustomDeployment cd2 r ∈ traceOf c req s ->
        cd2 = cd'
        /\ exists e, IsNotFound (Some e) = true
              /\ EvGetDeployment (dependentKey cd) (Err e) ∈ traceOf c req s)
  /\ (forall e s2,
        GetDeployment (dependentKey cd) s1 = (Err e, s2) ->
        IsNotFound (Some e) = true ->
        run (Reconcile req) s =
          let '(r, s3) := UpdateCustomDeployment cd' s2 in
          ((Result0, err_of r),
           (s3, [EvGetCustomDeployment (NamespacedName_ req) (Ok cd);
                 EvGetDeployment (dependentKey cd) (Err e);
                 EvUpdateCustomDeployment cd' r]))).
Proof.
  intros Hget Hzero Hfin cd'. split; [apply RemoveFinalizer_removes|].
  unfold_pass. rewrite Hget, Hzero, Hfin. cbn [negb fst snd]. split.
  - intros cd2 r.
    destruct (GetDeployment (dependentKey cd) s1) as [[d|e] s2]; cbn.
    + destruct (IsZero (DeletionTimestamp (deployMeta d))); cbn.
      * destruct (DeleteDeployment d s2) as [[e|] s3]; cbn;
          [destruct (negb (IsNotFound (Some e))); cbn|];
          intros Hin; by trace_cases Hin.
      * intros Hin; by trace_cases Hin.
    + destruct (IsNotFound (Some e)) eqn:Hnf; cbn.
      * destruct (UpdateCustomDeployment _ s2) as [[cd3|e3] s3]; cbn;
          intros Hin; trace_cases Hin; injection Hin as -> ->;
          (split; [done|]); exists e; (split; [done|]);
          by repeat constructor.
      * intros Hin; by trace_cases Hin.
  - intros e s2 Hdep Hnf. rewrite Hdep. cbn. rewrite Hnf. cbn.
    fold cd'. by destruct (UpdateCustomDeployment cd' s2) as [[cd3|e3] s3].
Qed.

(** C7.  Not-found on a read is not an error.  When the read of the
    CustomDeployment answers not-found, Reconcile returns no error and
    calls the client for nothing else.  When the read of the Deployment
    during teardown answers not-found, [handleDeletion] reports the
    teardown done, with no error and no further call.  And when the read
    of the Deployment in [handleCreateOrUpdate] answers not-found, an
    error it returns is the one of [SetControllerReference] or of a write
    it went on to issue, not the read's. *)
Theorem not_found_on_read_is_not_an_error (req : Request) (cd : CustomDeployment)
    (s s1 : σ) (e : error) :
  IsNotFound (Some e) = true ->
  (GetCustomDeployment (NamespacedName_ req) s = (Err e, s1) ->
     run (Reconcile req) s =
       ((Result0, None),
        (s1, [EvGetCustomDeployment (NamespacedName_ req) (Err e)])))
  /\ (GetDeployment (dependentKey cd) s = (Err e, s1) ->
       run (internal_controller.handleDeletion c cd) s =
         ((true, None), (s1, [EvGetDeployment (dependentKey cd) (Err e)])))
  /\ (GetDeployment (dependentKey cd) s = (Err e, s1) ->
       forall err,
         fst (run (internal_controller.handleCreateOrUpdate c cd) s) = Some err ->
         controllerutil.SetControllerReference cd
           (internal_controller.desiredDeployment cd) (Scheme_ c) = Err err
         \/ exists ev,
              ev ∈ snd (snd (run (internal_controller.handleCreateOrUpdate c cd) s))
              /\ isWrite ev = true /\ failedWith ev = Some err).
Proof.
  intros Hnf. split_and!; intros Hget; unfold_pass; rewrite Hget; cbn.
  - unfold IgnoreNotFound. by rewrite Hnf.
  - by rewrite Hnf.
  - rewrite Hnf. intros err.
    destruct (controllerutil.SetControllerReference _ _ _) as [d0|e0]; cbn;
      [|intros [= ->]; by left].
    destruct (CreateDeployment d0 s1) as [[d2|e2] s2]; cbn.
    + destruct (negb _); cbn; [|done].
      destruct (StatusUpdateCustomDeployment _ s2) as [[cd2|e3] s3]; cbn; [done|].
      intros [= ->]. right.
      eexists (EvStatusUpdateCustomDeployment _ (Err err)).
      split; [by repeat constructor | done].
    + intros [= ->]. right.
      exists (EvCreateDeployment d0 (Err err)).
      split; [by repeat constructor | done].
Qed.

(** C8.  A CustomDeployment not being deleted, with the token.  Once
    the create-or-update step has left an observed Deployment, the pass
    writes the status exactly once, with the observed
    [AvailableReplicas], when that differs from the published one, and
    does not write it when the two are equal; a pass whose
    create-or-update step failed writes no status. *)
Theorem status_written_once_iff_changed (req : Request) (s s1 : σ) (cd : CustomDeployment) :
  GetCustomDeployment (NamespacedName_ req) s = (Ok cd, s1) ->
  IsZero (DeletionTimestamp (cdMeta cd)) = true ->
  controllerutil.ContainsFinalizer cd fin = true ->
  match observedDeployment (traceOf c req s) None with
  | Some d =>
      (cdAvailableReplicas (cdStatus cd) <> AvailableReplicas (Status d) ->
         exists r,
           List.filter isStatusUpdate (traceOf c req s)
           = [EvStatusUpdateCustomDeployment
                (setAvailableReplicas (AvailableReplicas (Status d)) cd) r])
      /\ (cdAvailableReplicas (cdStatus cd) = AvailableReplicas (Status d) ->
           List.filter isStatusUpdate (traceOf c req s) = [])
  | None => List.filter isStatusUpdate (traceOf c req s) = []
  end.
Proof.
  intros Hget Hzero Hfin.
  unfold_pass. rewrite Hget, Hzero, Hfin. cbn [negb fst snd].
  destruct (GetDeployment (dependentKey cd) s1) as [[d|e] s2]; cbn.
  - destruct (match Replicas (Spec d) with
              | Some n => negb (n =? cdReplicas (cdSpec cd))
              | None => true
              end); cbn.
    + destruct (UpdateDeployment _ s2) as [[d2|e] s3]; cbn; [|done].
      destruct (Z.eqb_spec (cdAvailableReplicas (cdStatus cd))
                  (AvailableReplicas (Status d2))) as [Heq|Hne]; cbn.
      * split; [intros Hne; by destruct Hne | done].
      * destruct (StatusUpdateCustomDeployment _ s3) as [[cd2|e3] s4]; cbn;
        (split; [by eexists | done]).
    + destruct (Z.eqb_spec (cdAvailableReplicas (cdStatus cd))
                  (AvailableReplicas (Status d))) as [Heq|Hne]; cbn.
      * split; [intros Hne; by destruct Hne | done].
      * destruct (StatusUpdateCustomDeployment _ s2) as [[cd2|e3] s4]; cbn;
        (split; [by eexists | done]).
  - destruct (IsNotFound (Some e)); cbn; [|done].
    destruct (controllerutil.SetControllerReference _ _ _) as [d0|e0]; cbn; [|done].
    destruct (CreateDeployment d0 s2) as [[d2|e2] s3]; cbn; [|done].
    destruct (Z.eqb_spec (cdAvailableReplicas (cdStatus cd))
                (AvailableReplicas (Status d2))) as [Heq|Hne]; cbn.
    + split; [intros Hne; by destruct Hne | done].
    + destruct (StatusUpdateCustomDeployment _ s3) as [[cd2|e3] s4]; cbn;
        (split; [by eexists | done]).
Qed.

(** C9.  On a CustomDeployment not being deleted that carries the
    token, the finalizer-aware and the finalizer-free Reconcile do the
    same from any client state: the same calls with the same arguments
    and answers in the same order, the same result and error, the same
    client state after. *)
Theorem finalizer_free_variant_agrees (req : Request) (s s1 : σ) (cd : CustomDeployment) :
  GetCustomDeployment (NamespacedName_ req) s = (Ok cd, s1) ->
  IsZero (DeletionTimestamp (cdMeta cd)) = true ->
  controllerutil.ContainsFinalizer cd "apps.myorg.io/finalizer" = true ->
  run (internal_controller.Reconcile c req) s = run (controller.Reconcile c req) s.
Proof.
  intros Hget Hzero Hfin.
  unfold_pass. rewrite Hget, Hzero.
  change internal_controller.customDeploymentFinalizer with "apps.myorg.io/finalizer".
  rewrite Hfin. cbn [negb fst snd].
  destruct (GetDeployment (dependentKey cd) s1) as [[d|e] s2]; cbn.
  - destruct (match Replicas (Spec d) with
              | Some n => negb (n =? cdReplicas (cdSpec cd))
              | None => true
              end); cbn.
    + destruct (UpdateDeployment _ s2) as [[d2|e] s3]; cbn; [|done].
      destruct (negb _); cbn; [|done].
      by destruct (StatusUpdateCustomDeployment _ s3) as [[cd2|e3] s4].
    + destruct (negb _); cbn; [|done].
      by destruct (StatusUpdateCustomDeployment _ s2) as [[cd2|e3] s4].
  - destruct (IsNotFound (Some e)); cbn; [|done].
    change (controller.desiredDeployment cd)
      with (internal_controller.desiredDeployment cd).
    destruct (controllerutil.SetControllerReference _ _ _) as [d0|e0]; cbn; [|done].
    destruct (CreateDeployment d0 s2) as [[d2|e2] s3]; cbn; [|done].
    destruct (negb _); cbn; [|done].
    by destruct (StatusUpdateCustomDeployment _ s3) as [[cd2|e3] s4].
Qed.

End claims.

(** C10.  The desired Deployment of a CustomDeployment has its name and
    namespace, asks for its replicas, and both selects on and labels its
    pods with the single pair app = the CustomDeployment's name, so it
    selects its own pods. *)
Theorem desiredDeployment_selects_its_pods (cd : CustomDeployment) :
  let d := internal_controller.desiredDeployment cd in
  Name (deployMeta d) = Name (cdMeta cd)
  /\ Namespace (deployMeta d) = Namespace (cdMeta cd)
  /\ Replicas (Spec d) = Some (cdReplicas (cdSpec cd))
  /\ Selector (Spec d) = Some {| MatchLabels := {[ "app" := Name (cdMeta cd) ]} |}
  /\ Labels (templateMeta (Template (Spec d))) = {[ "app" := Name (cdMeta cd) ]}
  /\ (forall sel, Selector (Spec d) = Some sel ->
        MatchLabels sel = Labels (templateMeta (Template (Spec d)))
        /\ selects sel (Labels (templateMeta (Template (Spec d))))).
Proof.
  cbn. split_and!; try done.
  intros sel [= <-]. split; [done | by intros k v].
Qed.

(** C1, as amended.  Two passes in succession, the second reading what
    the first read: when the first pass had nothing to write, the second
    writes nothing either. *)
Theorem converged_pass_stays_silent {σ : Type} (c : CustomDeploymentController σ)
    (req : Request) (s : σ) :
  writes (traceOf c req s) = [] ->
  second_pass_writes_nothing c req s.
Proof.
  unfold second_pass_writes_nothing.
  unfold_pass.
  unfold writes, reads.
  crunch; cbn; intros Hw Hr; try done; simplify_eq; congruence.
Qed.

(** C1, as stated, fails.  The cache holds [ns/foo] without the token and
    does not catch up between the two passes: the second pass reads what
    the first read and sends the Update that adds the token again. *)
Lemma stale_cache_repeats_the_write :
  ~ second_pass_writes_nothing cached.reconciler samples.fooReq
      (cached.stateOf [samples.foo [] None 5 0] []).
Proof.
  unfold second_pass_writes_nothing. intros Hclaim.
  assert (reads (traceOf cached.reconciler samples.fooReq
                   (stateAfter cached.reconciler samples.fooReq
                      (cached.stateOf [samples.foo [] None 5 0] [])))
          = reads (traceOf cached.reconciler samples.fooReq
                     (cached.stateOf [samples.foo [] None 5 0] []))) as Hreads.
  { vm_compute. reflexivity. }
  specialize (Hclaim Hreads). vm_compute in Hclaim. discriminate Hclaim.
Qed.

(** The second pass of the example above, written out. *)
Example stale_cache_second_pass :
  let st := cached.stateOf [samples.foo [] None 5 0] [] in
  let cd' := samples.foo [samples.fin] None 5 0 in
  traceOf cached.reconciler samples.fooReq
    (stateAfter cached.reconciler samples.fooReq st)
  = [EvGetCustomDeployment samples.fooKey (Ok (samples.foo [] None 5 0));
     EvUpdateCustomDeployment cd' (Ok cd')].
Proof. vm_compute. reflexivity. Qed.

(** Nor does it help to let the cache catch up: after the pass that adds
    the token, the next pass reads the token and creates the
    Deployment. *)
Example synced_cache_second_pass_creates :
  let st := cached.stateOf [samples.foo [] None 5 0] [] in
  List.filter isCreate
    (traceOf cached.reconciler samples.fooReq
       (cached.sync (stateAfter cached.reconciler samples.fooReq st)))
  <> [].
Proof. vm_compute. discriminate. Qed.

Lemma converged_pass_stays_silent_witness :
  let st := cached.stateOf [samples.foo [samples.fin] None 5 2]
              [samples.fooDeployment (Some 5) 2 None] in
  writes (traceOf cached.reconciler samples.fooReq st) = []
  /\ second_pass_writes_nothing cached.reconciler samples.fooReq st.
Proof.
  assert (writes (traceOf cached.reconciler samples.fooReq
                    (cached.stateOf [samples.foo [samples.fin] None 5 2]
                       [samples.fooDeployment (Some 5) 2 None])) = []) as Hsilent.
  { vm_compute. reflexivity. }
  split; [exact Hsilent|].
  exact (converged_pass_stays_silent cached.reconciler samples.fooReq _ Hsilent).
Defined.

Lemma active_without_finalizer_only_adds_it_witness :
  let cd := samples.foo [] None 5 0 in
  let cd' := samples.foo [samples.fin] None 5 0 in
  let st := cached.stateOf [cd] [] in
  run (internal_controller.Reconcile cached.reconciler samples.fooReq) st
  = ((Result0, None),
     (cached.withServerCustomDeployments {[ ("ns", "foo") := cd' ]} st,
      [EvGetCustomDeployment samples.fooKey (Ok cd);
       EvUpdateCustomDeployment cd' (Ok cd')])).
Proof.
  intros cd cd' st.
  rewrite (active_without_finalizer_only_adds_it cached.reconciler
             samples.fooReq st st cd eq_refl eq_refl eq_refl).
  vm_compute. reflexivity.
Defined.

Lemma deleting_without_finalizer_is_terminal_witness :
  let cd := samples.foo [] (Some samples.someTime) 5 0 in
  let st := cached.stateOf [cd] [samples.fooDeployment (Some 5) 0 None] in
  run (internal_controller.Reconcile cached.reconciler samples.fooReq) st
  = ((Result0, None), (st, [EvGetCustomDeployment samples.fooKey (Ok cd)])).
Proof.
  intros cd st.
  exact (deleting_without_finalizer_is_terminal cached.reconciler
           samples.fooReq st st cd eq_refl eq_refl eq_refl).
Defined.

Lemma drift_updates_replicas_only_witness :
  let cd := samples.foo [samples.fin] None 5 2 in
  let d := samples.fooDeployment (Some 3) 2 None in
  let d5 := samples.fooDeployment (Some 5) 2 None in
  List.filter isUpdate
    (traceOf cached.reconciler samples.fooReq (cached.stateOf [cd] [d]))
  = [EvUpdateDeployment d5 (Ok d5)]
  /\ List.filter isUpdate
       (traceOf cached.reconciler samples.fooReq (cached.stateOf [cd] [d5]))
     = [].
Proof.
  intros cd d d5. split.
  - destruct (drift_updates_replicas_only cached.reconciler samples.fooReq
                (cached.stateOf [cd] [d]) _ _ cd d
                eq_refl eq_refl eq_refl eq_refl) as [Hdrift _].
    destruct (Hdrift ltac:(discriminate))
      as (d' & Htrace & Hrep & Hmeta & Hstatus & Hsel & Htpl & Hmin & Hpaused).
    assert (d' = d5) as ->.
    { destruct d' as [m [r sel tpl mrs p] st]. cbn in *. by subst. }
    rewrite Htrace. vm_compute. reflexivity.
  - apply (drift_updates_replicas_only cached.reconciler samples.fooReq
             (cached.stateOf [cd] [d5]) (cached.stateOf [cd] [d5])
             (cached.stateOf [cd] [d5]) cd d5);
      reflexivity.
Defined.

Lemma missing_dependent_is_created_witness :
  let cd := samples.foo [samples.fin] None 5 0 in
  let st := cached.stateOf [cd] [] in
  exists d ref,
    List.filter isCreate (traceOf cached.reconciler samples.fooReq st)
      = [EvCreateDeployment d (Ok d)]
    /\ OwnerReferences (deployMeta d) = [ref]
    /\ Controller ref = Some true
    /\ refAPIVersion ref = appsv1alpha1.GroupVersion
    /\ refKind ref = "CustomDeployment"
    /\ refName ref = "foo"
    /\ refUID ref = "uid-foo"
    /\ Name (deployMeta d) = "foo"
    /\ Namespace (deployMeta d) = "ns"
    /\ Replicas (Spec d) = Some 5.
Proof.
  intros cd st.
  destruct (missing_dependent_is_created cached.reconciler samples.fooReq
              st st st cd cached.notFound
              (WithKind appsv1alpha1.GroupVersion "CustomDeployment")
              eq_refl eq_refl eq_refl eq_refl eq_refl eq_refl)
    as (d & ref & Htrace & Hrest).
  exists d, ref. split; [|exact Hrest].
  rewrite Htrace. reflexivity.
Defined.

Lemma finalizer_removed_only_after_teardown_witness :
  let cd := samples.foo [samples.fin] (Some samples.someTime) 5 2 in
  let cd' := samples.foo [] (Some samples.someTime) 5 2 in
  let st := cached.stateOf [cd] [] in
  controllerutil.ContainsFinalizer cd' samples.fin = false
  /\ run (internal_controller.Reconcile cached.reconciler samples.fooReq) st
     = ((Result0, None),
        (cached.withServerCustomDeployments {[ ("ns", "foo") := cd' ]} st,
         [EvGetCustomDeployment samples.fooKey (Ok cd);
          EvGetDeployment samples.fooKey (Err cached.notFound);
          EvUpdateCustomDeployment cd' (Ok cd')])).
Proof.
  intros cd cd' st.
  destruct (finalizer_removed_only_after_teardown cached.reconciler
              samples.fooReq st st cd eq_refl eq_refl eq_refl)
    as (Hgone & _ & Hpass).
  split; [exact Hgone|].
  rewrite (Hpass cached.notFound st eq_refl eq_refl).
  vm_compute. reflexivity.
Defined.

Lemma not_found_on_read_is_not_an_error_witness :
  let cd := samples.foo [samples.fin] (Some samples.someTime) 5 2 in
  let st := cached.stateOf [] [] in
  run (internal_controller.Reconcile cached.reconciler samples.fooReq) st
  = ((Result0, None),
     (st, [EvGetCustomDeployment samples.fooKey (Err cached.notFound)]))
  /\ run (internal_controller.handleDeletion cached.reconciler cd) st
     = ((true, None),
        (st, [EvGetDeployment samples.fooKey (Err cached.notFound)])).
Proof.
  intros cd st.
  destruct (not_found_on_read_is_not_an_error cached.reconciler
              samples.fooReq cd st st cached.notFound eq_refl)
    as (Hparent & Hdependent & _).
  split; [exact (Hparent eq_refl) | exact (Hdependent eq_refl)].
Defined.

Lemma status_written_once_iff_changed_witness :
  let cd := samples.foo [samples.fin] None 5 0 in
  let d := samples.fooDeployment (Some 5) 2 None in
  let st := cached.stateOf [cd] [d] in
  (exists r,
     List.filter isStatusUpdate (traceOf cached.reconciler samples.fooReq st)
     = [EvStatusUpdateCustomDeployment (samples.foo [samples.fin] None 5 2) r])
  /\ List.filter isStatusUpdate
       (traceOf cached.reconciler samples.fooReq
          (cached.stateOf [samples.foo [samples.fin] None 5 2] [d]))
     = [].
Proof.
  intros cd d st. split.
  - pose proof (status_written_once_iff_changed cached.reconciler
                  samples.fooReq st st cd eq_refl eq_refl eq_refl) as Hstatus.
    assert (observedDeployment (traceOf cached.reconciler samples.fooReq st) None
            = Some d) as Hobs by (vm_compute; reflexivity).
    rewrite Hobs in Hstatus. destruct Hstatus as [Hchanged _].
    apply Hchanged. discriminate.
  - pose proof (status_written_once_iff_changed cached.reconciler
                  samples.fooReq
                  (cached.stateOf [samples.foo [samples.fin] None 5 2] [d])
                  (cached.stateOf [samples.foo [samples.fin] None 5 2] [d])
                  (samples.foo [samples.fin] None 5 2)
                  eq_refl eq_refl eq_refl) as Hstatus.
    assert (observedDeployment
              (traceOf cached.reconciler samples.fooReq
                 (cached.stateOf [samples.foo [samples.fin] None 5 2] [d])) None
            = Some d) as Hobs by (vm_compute; reflexivity).
    rewrite Hobs in Hstatus. destruct Hstatus as [_ Hsame].
    apply Hsame. reflexivity.
Defined.

Lemma finalizer_free_variant_agrees_witness :
  let cd := samples.foo [samples.fin] None 5 0 in
  let st := cached.stateOf [cd] [samples.fooDeployment (Some 3) 2 None] in
  run (internal_controller.Reconcile cached.reconciler samples.fooReq) st
  = run (controller.Reconcile cached.reconciler samples.fooReq) st.
Proof.
  intros cd st.
  exact (finalizer_free_variant_agrees cached.reconciler samples.fooReq
           st st cd eq_refl eq_refl eq_refl).
Defined.

(** ** More on the finalizer-aware controller *)

Section teardown.
Context {σ : Type} (c : CustomDeploymentController σ).

Abbreviation fin := internal_controller.customDeploymentFinalizer.
Abbreviation dependentKey cd :=
  {| nnNamespace := Namespace (cdMeta cd); nnName := Name (cdMeta cd) |}.

(** X1.  [handleDeletion] reports the teardown done exactly when its read of
    the Deployment answers not-found; in every other case it reports it
    pending. *)
Theorem handleDeletion_done_iff_not_found (cd : CustomDeployment) (s : σ) :
  fst (fst (run (internal_controller.handleDeletion c cd) s)) = true
  <-> exists e, fst (GetDeployment (dependentKey cd) s) = Err e
              /\ IsNotFound (Some e) = true.
Proof.
  unfold_pass.
  destruct (GetDeployment (dependentKey cd) s) as [[d|e] s1]; cbn.
  - split; [|by intros (e & [=] & _)].
    destruct (IsZero (DeletionTimestamp (deployMeta d))); cbn; [|done].
    destruct (DeleteDeployment d s1) as [[e|] s2]; cbn; [|done].
    by destruct (negb (IsNotFound (Some e))).
  - destruct (IsNotFound (Some e)) eqn:Hnf; cbn.
    + split; [by exists e | done].
    + split; [done | intros (e' & [= <-] & Hnf'); congruence].
Qed.

(** X2.  A pass over a CustomDeployment that is being deleted, carries the
    token and whose Deployment is still there: the token stays (the
    parent is not written), the only call after the two reads is the
    Delete of a Deployment not yet being deleted, and the pass returns
    the empty result, with the Delete's error unless that is
    not-found. *)
Theorem teardown_pending_pass (req : Request) (s s1 s2 : σ)
    (cd : CustomDeployment) (d : Deployment) :
  GetCustomDeployment (NamespacedName_ req) s = (Ok cd, s1) ->
  IsZero (DeletionTimestamp (cdMeta cd)) = false ->
  controllerutil.ContainsFinalizer cd fin = true ->
  GetDeployment (dependentKey cd) s1 = (Ok d, s2) ->
  run (internal_controller.Reconcile c req) s =
    if IsZero (DeletionTimestamp (deployMeta d)) then
      let '(r, s3) := DeleteDeployment d s2 in
      ((Result0, if IsNotFound r then None else r),
       (s3, [EvGetCustomDeployment (NamespacedName_ req) (Ok cd);
             EvGetDeployment (dependentKey cd) (Ok d);
             EvDeleteDeployment d r]))
    else
      ((Result0, None),
       (s2, [EvGetCustomDeployment (NamespacedName_ req) (Ok cd);
             EvGetDeployment (dependentKey cd) (Ok d)])).
Proof.
  intros Hget Hzero Hfin Hdep.
  unfold_pass. rewrite Hget, Hzero, Hfin. cbn [negb fst snd].
  rewrite Hdep. cbn.
  destruct (IsZero (DeletionTimestamp (deployMeta d))); cbn; [|done].
  destruct (DeleteDeployment d s2) as [[e|] s3]; cbn; [|done].
  by destruct (IsNotFound (Some e)).
Qed.

(** X3.  Once the token is removed, the pass that reads the parent as it was
    persisted is terminal: it returns at once, whatever the client holds
    otherwise. *)
Theorem removal_then_terminal (req : Request) (cd : CustomDeployment) (s s1 : σ) :
  IsZero (DeletionTimestamp (cdMeta cd)) = false ->
  let cd' := snd (controllerutil.RemoveFinalizer cd fin) in
  GetCustomDeployment (NamespacedName_ req) s = (Ok cd', s1) ->
  run (internal_controller.Reconcile c req) s =
    ((Result0, None),
     (s1, [EvGetCustomDeployment (NamespacedName_ req) (Ok cd')])).
Proof.
  intros Hzero cd' Hget.
  pose proof (RemoveFinalizer_removes cd fin) as Hgone. fold cd' in Hgone.
  assert (IsZero (DeletionTimestamp (cdMeta cd')) = false) as Hzero' by exact Hzero.
  clearbody cd'. unfold_pass. by rewrite Hget, Hzero', Hgone.
Qed.

End teardown.

(** ** What every pass of the finalizer-aware controller does *)

Section every_pass.
Context {σ : Type} (c : CustomDeploymentController σ).

Abbreviation fin := internal_controller.customDeploymentFinalizer.
Abbreviation dependentKey cd :=
  {| nnNamespace := Namespace (cdMeta cd); nnName := Name (cdMeta cd) |}.

(** X4.  Neither Reconcile ever asks to be requeued: whatever the client
    answers, the result is the empty [ctrl.Result]; a retry comes only
    from the error. *)
Theorem Reconcile_never_requeues (req : Request) (s : σ) :
  fst (fst (run (internal_controller.Reconcile c req) s)) = Result0
  /\ fst (fst (run (controller.Reconcile c req) s)) = Result0.
Proof.
  split; unfold_pass; crunch; reflexivity.
Qed.

(** X5.  A pass starts with the read of the parent and reads it once; it
    issues at most four calls, at most two of them writes, and at most
    one write of the Deployment's spec. *)
Theorem pass_is_bounded (req : Request) (s : σ) :
  (exists r rest,
     traceOf c req s = EvGetCustomDeployment (NamespacedName_ req) r :: rest
     /\ List.filter isParentRead rest = [])
  /\ (length (traceOf c req s) <= 4)%nat
  /\ (length (writes (traceOf c req s)) <= 2)%nat
  /\ (length (List.filter isDependentWrite (traceOf c req s)) <= 1)%nat.
Proof.
  unfold writes. unfold_pass.
  crunch; (split; [by eexists _, _ | cbn; lia]).
Qed.

(** X6.  The two branches keep to their own calls.  A pass over a parent that
    is not being deleted never deletes the Deployment, and never writes
    the parent once the token is there; a pass over a parent that is
    being deleted never creates or updates the Deployment and never
    writes the status. *)
Theorem branches_keep_apart (req : Request) (s s1 : σ) (cd : CustomDeployment) :
  GetCustomDeployment (NamespacedName_ req) s = (Ok cd, s1) ->
  (IsZero (DeletionTimestamp (cdMeta cd)) = true ->
     List.filter isDelete (traceOf c req s) = []
     /\ (controllerutil.ContainsFinalizer cd fin = true ->
         List.filter isParentUpdate (traceOf c req s) = []))
  /\ (IsZero (DeletionTimestamp (cdMeta cd)) = false ->
       List.filter isDependentWrite (traceOf c req s) = []
       /\ List.filter isStatusUpdate (traceOf c req s) = []).
Proof.
  intros Hget. unfold_pass. rewrite Hget. cbn [fst snd].
  split; intros Hzero; rewrite Hzero.
  - split; [|intros Hfin; rewrite Hfin]; crunch; reflexivity.
  - crunch; by split.
Qed.

(** X7.  With the parent not being deleted, the token there and the
    Deployment found, the pass writes nothing exactly when the
    Deployment has the desired replicas and its availability is the
    published one; it then returns no error. *)
Theorem silent_iff_converged (req : Request) (s s1 s2 : σ)
    (cd : CustomDeployment) (d : Deployment) :
  GetCustomDeployment (NamespacedName_ req) s = (Ok cd, s1) ->
  IsZero (DeletionTimestamp (cdMeta cd)) = true ->
  controllerutil.ContainsFinalizer cd fin = true ->
  GetDeployment (dependentKey cd) s1 = (Ok d, s2) ->
  (writes (traceOf c req s) = [] <-> converged cd d)
  /\ (converged cd d ->
       run (internal_controller.Reconcile c req) s =
         ((Result0, None),
          (s2, [EvGetCustomDeployment (NamespacedName_ req) (Ok cd);
                EvGetDeployment (dependentKey cd) (Ok d)]))).
Proof.
  intros Hget Hzero Hfin Hdep. unfold converged, writes.
  unfold_pass. rewrite Hget, Hzero, Hfin. cbn [negb fst snd].
  rewrite Hdep. cbn [fst snd].
  destruct (Replicas (Spec d)) as [n|]; cbn.
  - destruct (Z.eqb_spec n (cdReplicas (cdSpec cd))) as [->|Hn]; cbn.
    + destruct (Z.eqb_spec (cdAvailableReplicas (cdStatus cd))
                  (AvailableReplicas (Status d))) as [Ha|Ha]; cbn.
      * by split.
      * destruct (StatusUpdateCustomDeployment _ s2) as [[cd2|e] s3]; cbn;
          (split; [split; [done | by intros [_ ?]] | by intros [_ ?]]).
    + destruct (UpdateDeployment _ s2) as [[d2|e] s3]; cbn;
        [destruct (negb _); cbn;
           [destruct (StatusUpdateCustomDeployment _ s3) as [[cd2|e] s4]; cbn|]|];
        (split; [split; [done | intros [[= ?] _]; congruence]
                | intros [[= ?] _]; congruence]).
  - destruct (UpdateDeployment _ s2) as [[d2|e] s3]; cbn;
      [destruct (negb _); cbn;
         [destruct (StatusUpdateCustomDeployment _ s3) as [[cd2|e] s4]; cbn|]|];
      (split; [split; [done | by intros [[=] _]] | by intros [[=] _]]).
Qed.


(** X9.  A pass stops at the first call that fails.  A failed call is the
    last of the trace and its error is what Reconcile returns, unless the
    failure is a not-found on a read or on the Delete, which is not an
    error to the controller. *)
Theorem failure_ends_the_pass (req : Request) (s : σ) (ev : Event) (e : error) :
  ev ∈ traceOf c req s ->
  failedWith ev = Some e ->
  (IsNotFound (Some e) = true -> isRead ev = false /\ isDelete ev = false) ->
  last (traceOf c req s) = Some ev
  /\ snd (fst (run (internal_controller.Reconcile c req) s)) = Some e.
Proof.
  unfold_pass.
  crunch; cbn; intros Hin Hfail Hsw; trace_cases Hin; subst ev;
    cbn in Hfail; try discriminate Hfail; injection Hfail as <-;
    try done;
    try (match type of Hsw with
         | ?P -> _ =>
             assert P as Hp by (first [reflexivity | assumption]);
             destruct (Hsw Hp) as [Hr Hd];
             first [discriminate Hr | discriminate Hd]
         end).
  all: try congruence.
  unfold IgnoreNotFound.
  match goal with H : IsNotFound _ = false |- _ => by rewrite H end.
Qed.

(** X10.  An error Reconcile returns is the error of the last call of the
    pass, or the error of [SetControllerReference] when that stopped the
    pass before the Create. *)
Theorem returned_error_has_a_source (req : Request) (s : σ) (e : error) :
  snd (fst (run (internal_controller.Reconcile c req) s)) = Some e ->
  (exists ev, last (traceOf c req s) = Some ev /\ failedWith ev = Some e)
  \/ (exists cd,
        EvGetCustomDeployment (NamespacedName_ req) (Ok cd) ∈ traceOf c req s
        /\ controllerutil.SetControllerReference cd
             (internal_controller.desiredDeployment cd) (Scheme_ c) = Err e
        /\ List.filter isCreate (traceOf c req s) = []).
Proof.
  unfold_pass. unfold IgnoreNotFound.
  crunch; cbn; intros Hret; try discriminate Hret; injection Hret as <-.
  all: try (left; eexists; split; [reflexivity|]; cbn; done).
  all: right; eexists; split; [by repeat constructor|];
    split; [eassumption | reflexivity].
Qed.

End every_pass.

(** ** Passes that read back what an earlier pass wrote *)

Section read_back.
Context {σ : Type} (c : CustomDeploymentController σ).

Abbreviation fin := internal_controller.customDeploymentFinalizer.
Abbreviation dependentKey cd :=
  {| nnNamespace := Namespace (cdMeta cd); nnName := Name (cdMeta cd) |}.

(** X11.  The token is added once.  A pass that reads the parent as the
    token-adding pass sent it does not write the parent again: it goes on
    to the Deployment. *)
Theorem finalizer_added_once (req : Request) (cd : CustomDeployment) (s s1 : σ) :
  IsZero (DeletionTimestamp (cdMeta cd)) = true ->
  let cd' := snd (controllerutil.AddFinalizer cd fin) in
  GetCustomDeployment (NamespacedName_ req) s = (Ok cd', s1) ->
  List.filter isParentUpdate (traceOf c req s) = []
  /\ EvGetDeployment (dependentKey cd) (fst (GetDeployment (dependentKey cd) s1))
       ∈ traceOf c req s.
Proof.
  intros Hzero cd' Hget.
  assert (controllerutil.ContainsFinalizer cd' fin = true) as Hfin.
  { apply ContainsFinalizer_elem. subst cd'.
    unfold controllerutil.AddFinalizer.
    destruct (existsb _ _) eqn:Hin; cbn.
    - by apply existsb_eqb_elem.
    - apply elem_of_app. right. by apply list_elem_of_singleton. }
  assert (IsZero (DeletionTimestamp (cdMeta cd')) = true) as Hzero'.
  { subst cd'. unfold controllerutil.AddFinalizer.
    by destruct (existsb _ _). }
  assert (dependentKey cd' = dependentKey cd) as Hkey.
  { subst cd'. unfold controllerutil.AddFinalizer.
    by destruct (existsb _ _). }
  clearbody cd'. unfold_pass. rewrite Hget, Hzero', Hfin. cbn [negb fst snd].
  rewrite Hkey.
  destruct (GetDeployment (dependentKey cd) s1) as [[d|e] s2]; cbn [fst snd];
    (split; [crunch; reflexivity | crunch; by repeat constructor]).
Qed.

(** X12.  What a pass writes to the Deployment, a later pass accepts.  If a
    pass over a parent sends a Deployment in a Create or an Update, then
    a pass that reads a parent asking for the same replicas and reads
    that Deployment back neither creates nor updates it. *)
Theorem written_dependent_is_accepted (req req' : Request) (s s' s1' s2' : σ)
    (cd cd2 : CustomDeployment) (d : Deployment) (r : result Deployment) :
  EvGetCustomDeployment (NamespacedName_ req) (Ok cd) ∈ traceOf c req s ->
  EvCreateDeployment d r ∈ traceOf c req s \/ EvUpdateDeployment d r ∈ traceOf c req s ->
  GetCustomDeployment (NamespacedName_ req') s' = (Ok cd2, s1') ->
  cdReplicas (cdSpec cd2) = cdReplicas (cdSpec cd) ->
  GetDeployment (dependentKey cd2) s1' = (Ok d, s2') ->
  List.filter isDependentWrite (traceOf c req' s') = [].
Proof.
  intros Hparent Hsent Hget Hspec Hdep.
  assert (Replicas (Spec d) = Some (cdReplicas (cdSpec cd2))) as Hrep.
  { rewrite Hspec. clear Hget Hdep Hspec. revert Hparent Hsent.
    unfold_pass.
    crunch; cbn; intros Hparent Hsent;
      trace_cases Hparent; simplify_eq;
      destruct Hsent as [Hsent|Hsent]; trace_cases Hsent;
      simplify_eq; try done.
    all: match goal with
         | H : controllerutil.SetControllerReference _ _ _ = Ok _ |- _ =>
             rewrite SetControllerReference_desired in H;
             destruct (apiutil.GVKForObject _ _); by simplify_eq
         end. }
  unfold_pass. rewrite Hget. cbn [fst snd].
  destruct (IsZero (DeletionTimestamp (cdMeta cd2))); cbn.
  - destruct (controllerutil.ContainsFinalizer cd2 fin); cbn.
    + rewrite Hdep. cbn. rewrite Hrep, Z.eqb_refl. cbn.
      crunch; reflexivity.
    + crunch; reflexivity.
  - crunch; reflexivity.
Qed.

End read_back.

(** ** The finalizer-free controller *)

Section finalizer_free.
Context {σ : Type} (c : CustomDeploymentController σ).

Abbreviation dependentKey cd :=
  {| nnNamespace := Namespace (cdMeta cd); nnName := Name (cdMeta cd) |}.

(** X13.  The finalizer-free Reconcile is the read of the parent followed by
    what [handleCreateOrUpdate] of the finalizer-aware controller does,
    for every parent it reads: with or without the token, being deleted
    or not. *)
Theorem finalizer_free_is_create_or_update (req : Request) (s s1 : σ) (cd : CustomDeployment) :
  GetCustomDeployment (NamespacedName_ req) s = (Ok cd, s1) ->
  run (controller.Reconcile c req) s =
    let '(err, w) :=
      internal_controller.handleCreateOrUpdate c cd
        (s1, [EvGetCustomDeployment (NamespacedName_ req) (Ok cd)]) in
    ((Result0, err), w).
Proof.
  intros Hget. unfold_pass. rewrite Hget. cbn [fst snd].
  change (controller.desiredDeployment cd)
    with (internal_controller.desiredDeployment cd).
  crunch; reflexivity.
Qed.

(** X14.  The finalizer-free Reconcile never tears anything down: whatever it
    reads, it issues no Delete and never writes the parent's metadata. *)
Theorem finalizer_free_never_tears_down (req : Request) (s : σ) :
  List.filter isDelete (plainTraceOf c req s) = []
  /\ List.filter isParentUpdate (plainTraceOf c req s) = [].
Proof.
  unfold plainTraceOf. unfold_pass.
  split; crunch; reflexivity.
Qed.

(** X15.  Where the two controllers part.  On a parent that is being deleted
    and whose Deployment is not found, the finalizer-free Reconcile
    creates the Deployment all the same, while the finalizer-aware one
    creates nothing. *)
Theorem finalizer_free_creates_for_a_deleted_parent (req : Request) (s s1 s2 : σ)
    (cd : CustomDeployment) (e : error) (gvk : GroupVersionKind) :
  GetCustomDeployment (NamespacedName_ req) s = (Ok cd, s1) ->
  IsZero (DeletionTimestamp (cdMeta cd)) = false ->
  GetDeployment (dependentKey cd) s1 = (Err e, s2) ->
  IsNotFound (Some e) = true ->
  apiutil.GVKForObject TCustomDeployment (Scheme_ c) = Ok gvk ->
  let d := setMeta
             (setOwnerReferences [controllerRef cd gvk]
                (deployMeta (controller.desiredDeployment cd)))
             (controller.desiredDeployment cd) in
  List.filter isCreate (plainTraceOf c req s)
    = [EvCreateDeployment d (fst (CreateDeployment d s2))]
  /\ List.filter isCreate (traceOf c req s) = [].
Proof.
  intros Hget Hzero Hdep Hnf Hgvk d. split.
  - unfold plainTraceOf. unfold_pass. rewrite Hget. cbn [fst snd].
    rewrite Hdep. cbn [fst snd]. rewrite Hnf.
    change (controller.desiredDeployment cd)
      with (internal_controller.desiredDeployment cd) in *.
    rewrite SetControllerReference_desired, Hgvk. subst d. cbn.
    destruct (CreateDeployment _ s2) as [[d2|e2] s3]; cbn; [|done].
    destruct (negb _); cbn; [|done].
    by destruct (StatusUpdateCustomDeployment _ s3) as [[cd2|e3] s4].
  - unfold_pass. rewrite Hget, Hzero. cbn [fst snd].
    crunch; reflexivity.
Qed.

End finalizer_free.

(** ** Registering the API types *)




(** ** The ConfigMap-to-Secret controller *)

Ltac unfold_simple :=
  unfold simple.traceOf, simple.run, simple.Reconcile,
    simple.bind, simple.call, simple.ret in *;
  cbn [fst snd] in *.

Lemma SetControllerReference_secretFor (configMap : simple.ConfigMap) (scheme : Scheme) :
  controllerutil.SetControllerReference configMap (simple.secretFor configMap) scheme
  = match apiutil.GVKForObject (TOther "ConfigMap") scheme with
    | Err err => Err err
    | Ok gvk =>
        Ok (setMeta
              (setOwnerReferences [simple.ownerRef configMap gvk]
                 (simple.secretMeta (simple.secretFor configMap)))
              (simple.secretFor configMap))
    end.
Proof.
  unfold controllerutil.SetControllerReference.
  rewrite validateOwner_same_namespace by done.
  cbn. by destruct (apiutil.GVKForObject _ _).
Qed.

Section simple_controller.
Context {σ : Type} (r : simple.ConfigMapReconciler σ).

Abbreviation secretKey cm :=
  {| nnNamespace := Namespace (simple.cmMeta cm);
     nnName := String.append (Name (simple.cmMeta cm)) "-synced" |}.

(** X17.  When the ConfigMap is not found, the pass deletes the Secret named
    after the request, [<name>-synced] in the request's namespace, and
    nothing else; a not-found on that Delete is not an error. *)
Theorem deleted_configmap_cleans_up_secret (req : Request) (s s1 : σ) (e : error) :
  simple.GetConfigMap (NamespacedName_ req) s = (Err e, s1) ->
  IsNotFound (Some e) = true ->
  exists secret,
    Name (simple.secretMeta secret)
      = String.append (nnName (NamespacedName_ req)) "-synced"
    /\ Namespace (simple.secretMeta secret) = nnNamespace (NamespacedName_ req)
    /\ simple.run (simple.Reconcile r req) s =
         let '(err, s2) := simple.DeleteSecret secret s1 in
         ((Result0, if IsNotFound err then None else err),
          (s2, [simple.EvGetConfigMap (NamespacedName_ req) (Err e);
                simple.EvDeleteSecret secret err])).
Proof.
  intros Hget Hnf.
  exists {| simple.secretMeta :=
              {| Name := String.append (nnName (NamespacedName_ req)) "-synced";
                 Namespace := nnNamespace (NamespacedName_ req);
                 UID := ""; ResourceVersion := ""; Generation := 0;
                 DeletionTimestamp := None; Labels := ∅;
                 Annotations := ∅; OwnerReferences := []; Finalizers := [] |};
            simple.Immutable := None; simple.secretData := ∅;
            simple.StringData := ∅; simple.secretType := "" |}.
  split_and!; [done | done |].
  unfold_simple. rewrite Hget. cbn [fst snd]. rewrite Hnf. cbn [fst snd].
  destruct (simple.DeleteSecret _ s1) as [[e2|] s2]; cbn; [|reflexivity].
  by destruct (IsNotFound (Some e2)).
Qed.

(** X18.  A ConfigMap without the sync annotation is left alone: the pass ends
    after reading it, with no error. *)
Theorem unannotated_configmap_is_skipped (req : Request) (s s1 : σ) (cm : simple.ConfigMap) :
  simple.GetConfigMap (NamespacedName_ req) s = (Ok cm, s1) ->
  Annotations (simple.cmMeta cm) !! simple.syncAnnotation = None ->
  simple.run (simple.Reconcile r req) s =
    ((Result0, None), (s1, [simple.EvGetConfigMap (NamespacedName_ req) (Ok cm)])).
Proof.
  intros Hget Hann. unfold_simple. rewrite Hget. cbn. by rewrite Hann.
Qed.

(** X19.  An annotated ConfigMap whose Secret is not found: the pass creates
    the Secret [<name>-synced] in the ConfigMap's namespace, with the
    ConfigMap's data as its string data, the two managed-by and source
    labels, and the ConfigMap as its controlling owner; it returns the
    Create's error. *)
Theorem missing_secret_is_created (req : Request) (s s1 s2 : σ)
    (cm : simple.ConfigMap) (v : string) (gvk : GroupVersionKind) (e : error) :
  simple.GetConfigMap (NamespacedName_ req) s = (Ok cm, s1) ->
  Annotations (simple.cmMeta cm) !! simple.syncAnnotation = Some v ->
  apiutil.GVKForObject (TOther "ConfigMap") (simple.rScheme r) = Ok gvk ->
  simple.GetSecret (secretKey cm) s1 = (Err e, s2) ->
  IsNotFound (Some e) = true ->
  exists secret,
    simple.run (simple.Reconcile r req) s =
      (let '(created, s3) := simple.CreateSecret secret s2 in
       ((Result0, err_of created),
        (s3, [simple.EvGetConfigMap (NamespacedName_ req) (Ok cm);
              simple.EvGetSecret (secretKey cm) (Err e);
              simple.EvCreateSecret secret created])))
    /\ Name (simple.secretMeta secret) = String.append (Name (simple.cmMeta cm)) "-synced"
    /\ Namespace (simple.secretMeta secret) = Namespace (simple.cmMeta cm)
    /\ simple.StringData secret = simple.Data cm
    /\ Labels (simple.secretMeta secret)
       = <["app.kubernetes.io/managed-by" := "simple-controller"]>
           {[ "app.kubernetes.io/source" := Name (simple.cmMeta cm) ]}
    /\ OwnerReferences (simple.secretMeta secret) = [simple.ownerRef cm gvk].
Proof.
  intros Hget Hann Hgvk Hsec Hnf.
  exists (setMeta
            (setOwnerReferences [simple.ownerRef cm gvk]
               (simple.secretMeta (simple.secretFor cm)))
            (simple.secretFor cm)).
  split; [|done].
  unfold_simple. rewrite Hget. cbn [fst snd]. rewrite Hann.
  rewrite SetControllerReference_secretFor, Hgvk.
  cbn [fst snd]. rewrite Hsec. cbn [fst snd]. rewrite Hnf. cbn [fst snd app].
  destruct (simple.CreateSecret _ s2) as [[sec2|e2] s3]; reflexivity.
Qed.

(** X20.  An annotated ConfigMap whose Secret exists: the pass updates it on
    every pass, whether or not anything differs.  The Secret it sends is
    the one it read with the string data and the labels replaced; the
    rest, the owner references among it, is as it was read. *)
Theorem existing_secret_is_overwritten (req : Request) (s s1 s2 : σ)
    (cm : simple.ConfigMap) (v : string) (gvk : GroupVersionKind)
    (existing : simple.Secret) :
  simple.GetConfigMap (NamespacedName_ req) s = (Ok cm, s1) ->
  Annotations (simple.cmMeta cm) !! simple.syncAnnotation = Some v ->
  apiutil.GVKForObject (TOther "ConfigMap") (simple.rScheme r) = Ok gvk ->
  simple.GetSecret (secretKey cm) s1 = (Ok existing, s2) ->
  let labels : gmap string string :=
    <["app.kubernetes.io/managed-by" := "simple-controller"]>
      {[ "app.kubernetes.io/source" := Name (simple.cmMeta cm) ]} in
  let sent := simple.setLabels labels (simple.setStringData (simple.Data cm) existing) in
  simple.run (simple.Reconcile r req) s =
    (let '(updated, s3) := simple.UpdateSecret sent s2 in
     ((Result0, err_of updated),
      (s3, [simple.EvGetConfigMap (NamespacedName_ req) (Ok cm);
            simple.EvGetSecret (secretKey cm) (Ok existing);
            simple.EvUpdateSecret sent updated])))
  /\ simple.StringData sent = simple.Data cm
  /\ Labels (simple.secretMeta sent) = labels
  /\ simple.secretData sent = simple.secretData existing
  /\ simple.secretType sent = simple.secretType existing
  /\ simple.Immutable sent = simple.Immutable existing
  /\ OwnerReferences (simple.secretMeta sent)
     = OwnerReferences (simple.secretMeta existing)
  /\ Annotations (simple.secretMeta sent) = Annotations (simple.secretMeta existing)
  /\ Finalizers (simple.secretMeta sent) = Finalizers (simple.secretMeta existing)
  /\ ResourceVersion (simple.secretMeta sent)
     = ResourceVersion (simple.secretMeta existing).
Proof.
  intros Hget Hann Hgvk Hsec labels sent.
  split; [|done].
  unfold_simple. rewrite Hget. cbn [fst snd]. rewrite Hann.
  rewrite SetControllerReference_secretFor, Hgvk.
  cbn [fst snd]. rewrite Hsec. cbn [fst snd app].
  change (Labels (simple.secretMeta (setMeta _ (simple.secretFor cm)))) with labels.
  fold sent.
  destruct (simple.UpdateSecret sent s2) as [[sec2|e2] s3]; reflexivity.
Qed.


(** X22.  Every pass reads the ConfigMap first, issues at most three calls, at
    most one of them a write, and never asks to be requeued. *)
Theorem simple_pass_is_bounded (req : Request) (s : σ) :
  (exists got rest,
     simple.traceOf r req s = simple.EvGetConfigMap (NamespacedName_ req) got :: rest)
  /\ (length (simple.traceOf r req s) <= 3)%nat
  /\ (length (List.filter simple.isWrite (simple.traceOf r req s)) <= 1)%nat
  /\ fst (fst (simple.run (simple.Reconcile r req) s)) = Result0.
Proof.
  unfold_simple.
  destruct (simple.GetConfigMap (NamespacedName_ req) s) as [[cm|e] s1]; cbn.
  - destruct (Annotations (simple.cmMeta cm) !! simple.syncAnnotation); cbn;
      [|split_and!; [by eexists _, _ | lia | lia | done]].
    destruct (controllerutil.SetControllerReference _ _ _) as [sec|e]; cbn;
      [|split_and!; [by eexists _, _ | lia | lia | done]].
    destruct (simple.GetSecret _ s1) as [[ex|e] s2]; cbn.
    + destruct (simple.UpdateSecret _ s2) as [[sec2|e2] s3]; cbn;
        (split_and!; [by eexists _, _ | lia | lia | done]).
    + destruct (IsNotFound (Some e)); cbn;
        [destruct (simple.CreateSecret sec s2) as [[sec2|e2] s3]; cbn|];
        (split_and!; [by eexists _, _ | lia | lia | done]).
  - destruct (IsNotFound (Some e)); cbn;
      [destruct (simple.DeleteSecret _ s1) as [[e2|] s2]; cbn;
         [destruct (negb (IsNotFound (Some e2))); cbn|]|];
      (split_and!; [by eexists _, _ | lia | lia | done]).
Qed.

End simple_controller.

(** ** The further theorems on concrete clients *)

Lemma teardown_pending_pass_witness :
  let cd := samples.foo [samples.fin] (Some samples.someTime) 5 2 in
  let d := samples.fooDeployment (Some 5) 2 None in
  let st := cached.stateOf [cd] [d] in
  run (internal_controller.Reconcile cached.reconciler samples.fooReq) st
  = ((Result0, None),
     (cached.withServerDeployments ∅ st,
      [EvGetCustomDeployment samples.fooKey (Ok cd);
       EvGetDeployment samples.fooKey (Ok d);
       EvDeleteDeployment d None])).
Proof.
  intros cd d st.
  rewrite (teardown_pending_pass cached.reconciler samples.fooReq st st st cd d
             eq_refl eq_refl eq_refl eq_refl).
  vm_compute. reflexivity.
Defined.

Lemma removal_then_terminal_witness :
  let cd := samples.foo [samples.fin] (Some samples.someTime) 5 2 in
  let cd' := samples.foo [] (Some samples.someTime) 5 2 in
  let st := cached.stateOf [cd'] [samples.fooDeployment (Some 5) 2 None] in
  run (internal_controller.Reconcile cached.reconciler samples.fooReq) st
  = ((Result0, None), (st, [EvGetCustomDeployment samples.fooKey (Ok cd')])).
Proof.
  intros cd cd' st.
  exact (removal_then_terminal cached.reconciler samples.fooReq cd st st
           eq_refl eq_refl).
Defined.

Lemma branches_keep_apart_witness :
  let active := samples.foo [samples.fin] None 5 2 in
  let deleting := samples.foo [samples.fin] (Some samples.someTime) 5 2 in
  let d := samples.fooDeployment (Some 3) 0 None in
  (List.filter isDelete
     (traceOf cached.reconciler samples.fooReq (cached.stateOf [active] [d])) = []
   /\ List.filter isParentUpdate
        (traceOf cached.reconciler samples.fooReq (cached.stateOf [active] [d])) = [])
  /\ (List.filter isDependentWrite
        (traceOf cached.reconciler samples.fooReq (cached.stateOf [deleting] [d])) = []
      /\ List.filter isStatusUpdate
           (traceOf cached.reconciler samples.fooReq (cached.stateOf [deleting] [d])) = []).
Proof.
  intros active deleting d. split.
  - destruct (branches_keep_apart cached.reconciler samples.fooReq
                (cached.stateOf [active] [d]) (cached.stateOf [active] [d])
                active eq_refl) as [Hactive _].
    destruct (Hactive eq_refl) as [Hdelete Hparent].
    split; [exact Hdelete | exact (Hparent eq_refl)].
  - destruct (branches_keep_apart cached.reconciler samples.fooReq
                (cached.stateOf [deleting] [d]) (cached.stateOf [deleting] [d])
                deleting eq_refl) as [_ Hdeleting].
    exact (Hdeleting eq_refl).
Defined.

Lemma silent_iff_converged_witness :
  let cd := samples.foo [samples.fin] None 5 2 in
  let d := samples.fooDeployment (Some 5) 2 None in
  let st := cached.stateOf [cd] [d] in
  converged cd d
  /\ writes (traceOf cached.reconciler samples.fooReq st) = []
  /\ ~ converged cd (samples.fooDeployment (Some 5) 4 None)
  /\ writes (traceOf cached.reconciler samples.fooReq
               (cached.stateOf [cd] [samples.fooDeployment (Some 5) 4 None])) <> [].
Proof.
  intros cd d st.
  destruct (silent_iff_converged cached.reconciler samples.fooReq st st st cd d
              eq_refl eq_refl eq_refl eq_refl) as [Hiff _].
  destruct (silent_iff_converged cached.reconciler samples.fooReq
              (cached.stateOf [cd] [samples.fooDeployment (Some 5) 4 None])
              (cached.stateOf [cd] [samples.fooDeployment (Some 5) 4 None])
              (cached.stateOf [cd] [samples.fooDeployment (Some 5) 4 None])
              cd (samples.fooDeployment (Some 5) 4 None)
              eq_refl eq_refl eq_refl eq_refl) as [Hiff' _].
  assert (converged cd d) as Hconv by (split; reflexivity).
  assert (~ converged cd (samples.fooDeployment (Some 5) 4 None)) as Hnot.
  { intros [_ Havail]. discriminate Havail. }
  split_and!; [exact Hconv | by apply Hiff | exact Hnot |].
  intros Hsilent. by apply Hnot, Hiff'.
Defined.


Lemma failure_ends_the_pass_witness :
  let cd := samples.foo [samples.fin] None 5 0 in
  let d := samples.fooDeployment (Some 5) 0 None in
  (* the server holds the Deployment, the cache has not seen it yet *)
  let st := cached.withServerDeployments {[ ("ns", "foo") := d ]} (cached.stateOf [cd] []) in
  let sent :=
    setMeta
      (setOwnerReferences
         [controllerRef cd (WithKind appsv1alpha1.GroupVersion "CustomDeployment")]
         (deployMeta (internal_controller.desiredDeployment cd)))
      (internal_controller.desiredDeployment cd) in
  last (traceOf cached.reconciler samples.fooReq st)
    = Some (EvCreateDeployment sent (Err cached.alreadyExists))
  /\ snd (fst (run (internal_controller.Reconcile cached.reconciler samples.fooReq) st))
     = Some cached.alreadyExists.
Proof.
  intros cd d st sent.
  apply (failure_ends_the_pass cached.reconciler samples.fooReq st).
  - assert (traceOf cached.reconciler samples.fooReq st
            = [EvGetCustomDeployment samples.fooKey (Ok cd);
               EvGetDeployment samples.fooKey (Err cached.notFound);
               EvCreateDeployment sent (Err cached.alreadyExists)]) as ->
      by (vm_compute; reflexivity).
    by repeat constructor.
  - reflexivity.
  - intros Hnf. vm_compute in Hnf. discriminate Hnf.
Defined.

Lemma returned_error_has_a_source_witness :
  let cd := samples.foo [samples.fin] None 5 0 in
  let d := samples.fooDeployment (Some 5) 0 None in
  let st := cached.withServerDeployments {[ ("ns", "foo") := d ]} (cached.stateOf [cd] []) in
  (exists ev,
     last (traceOf cached.reconciler samples.fooReq st) = Some ev
     /\ failedWith ev = Some cached.alreadyExists)
  \/ (exists cd0,
        EvGetCustomDeployment samples.fooKey (Ok cd0)
          ∈ traceOf cached.reconciler samples.fooReq st
        /\ controllerutil.SetControllerReference cd0
             (internal_controller.desiredDeployment cd0)
             (Scheme_ cached.reconciler) = Err cached.alreadyExists
        /\ List.filter isCreate (traceOf cached.reconciler samples.fooReq st) = []).
Proof.
  intros cd d st.
  apply (returned_error_has_a_source cached.reconciler samples.fooReq st).
  vm_compute. reflexivity.
Defined.

Lemma finalizer_added_once_witness :
  let cd := samples.foo [] None 5 0 in
  let st := cached.stateOf [samples.foo [samples.fin] None 5 0] [] in
  List.filter isParentUpdate (traceOf cached.reconciler samples.fooReq st) = []
  /\ EvGetDeployment samples.fooKey (Err cached.notFound)
       ∈ traceOf cached.reconciler samples.fooReq st.
Proof.
  intros cd st.
  exact (finalizer_added_once cached.reconciler samples.fooReq cd st st
           eq_refl eq_refl).
Defined.

Lemma written_dependent_is_accepted_witness :
  let cd := samples.foo [samples.fin] None 5 2 in
  let d3 := samples.fooDeployment (Some 3) 2 None in
  let d5 := samples.fooDeployment (Some 5) 2 None in
  EvUpdateDeployment d5 (Ok d5)
    ∈ traceOf cached.reconciler samples.fooReq (cached.stateOf [cd] [d3])
  /\ List.filter isDependentWrite
       (traceOf cached.reconciler samples.fooReq (cached.stateOf [cd] [d5])) = [].
Proof.
  intros cd d3 d5.
  assert (traceOf cached.reconciler samples.fooReq (cached.stateOf [cd] [d3])
          = [EvGetCustomDeployment samples.fooKey (Ok cd);
             EvGetDeployment samples.fooKey (Ok d3);
             EvUpdateDeployment d5 (Ok d5)]) as Htrace
    by (vm_compute; reflexivity).
  assert (EvUpdateDeployment d5 (Ok d5)
            ∈ traceOf cached.reconciler samples.fooReq (cached.stateOf [cd] [d3])) as Hsent.
  { rewrite Htrace. by repeat constructor. }
  split; [exact Hsent|].
  apply (written_dependent_is_accepted cached.reconciler samples.fooReq samples.fooReq
           (cached.stateOf [cd] [d3]) (cached.stateOf [cd] [d5])
           (cached.stateOf [cd] [d5]) (cached.stateOf [cd] [d5])
           cd cd d5 (Ok d5)).
  - rewrite Htrace. by repeat constructor.
  - by right.
  - reflexivity.
  - reflexivity.
  - reflexivity.
Defined.

Lemma finalizer_free_is_create_or_update_witness :
  let cd := samples.foo [] (Some samples.someTime) 5 0 in
  let st := cached.stateOf [cd] [samples.fooDeployment (Some 3) 2 None] in
  run (controller.Reconcile cached.reconciler samples.fooReq) st
  = let '(err, w) :=
      internal_controller.handleCreateOrUpdate cached.reconciler cd
        (st, [EvGetCustomDeployment samples.fooKey (Ok cd)]) in
    ((Result0, err), w).
Proof.
  intros cd st.
  exact (finalizer_free_is_create_or_update cached.reconciler samples.fooReq
           st st cd eq_refl).
Defined.

Lemma finalizer_free_creates_for_a_deleted_parent_witness :
  let cd := samples.foo [samples.fin] (Some samples.someTime) 5 0 in
  let st := cached.stateOf [cd] [] in
  let d := setMeta
             (setOwnerReferences
                [controllerRef cd (WithKind appsv1alpha1.GroupVersion "CustomDeployment")]
                (deployMeta (controller.desiredDeployment cd)))
             (controller.desiredDeployment cd) in
  List.filter isCreate (plainTraceOf cached.reconciler samples.fooReq st)
    = [EvCreateDeployment d (Ok d)]
  /\ List.filter isCreate (traceOf cached.reconciler samples.fooReq st) = [].
Proof.
  intros cd st d.
  exact (finalizer_free_creates_for_a_deleted_parent cached.reconciler
           samples.fooReq st st st cd cached.notFound _
           eq_refl eq_refl eq_refl eq_refl eq_refl).
Defined.


Lemma deleted_configmap_cleans_up_secret_witness :
  let st := simple.storeOf [] [simple.sampleSecret] in
  exists secret,
    Name (simple.secretMeta secret) = "my-app-config-synced"
    /\ Namespace (simple.secretMeta secret) = "default"
    /\ simple.run (simple.Reconcile simple.reconciler simple.sampleReq) st
       = ((Result0, None),
          (simple.withSecrets ∅ st,
           [simple.EvGetConfigMap simple.sampleKey (Err cached.notFound);
            simple.EvDeleteSecret secret None])).
Proof.
  intros st.
  destruct (deleted_configmap_cleans_up_secret simple.reconciler simple.sampleReq
              st st cached.notFound eq_refl eq_refl)
    as (secret & Hname & Hns & Hrun).
  exists secret. split_and!; [exact Hname | exact Hns |].
  rewrite Hrun. clear Hrun. destruct secret as [m i dt sd ty].
  cbn in Hname, Hns. destruct m. cbn in Hname, Hns. subst.
  vm_compute. reflexivity.
Defined.

Lemma unannotated_configmap_is_skipped_witness :
  let cm := simple.sampleConfigMap {[ "owner" := "team-a" ]} in
  let st := simple.storeOf [cm] [simple.sampleSecret] in
  simple.run (simple.Reconcile simple.reconciler simple.sampleReq) st
  = ((Result0, None), (st, [simple.EvGetConfigMap simple.sampleKey (Ok cm)])).
Proof.
  intros cm st.
  exact (unannotated_configmap_is_skipped simple.reconciler simple.sampleReq
           st st cm eq_refl eq_refl).
Defined.

Lemma missing_secret_is_created_witness :
  let cm := simple.sampleConfigMap {[ simple.syncAnnotation := "true" ]} in
  let st := simple.storeOf [cm] [] in
  exists secret,
    List.filter simple.isWrite (simple.traceOf simple.reconciler simple.sampleReq st)
      = [simple.EvCreateSecret secret (Ok secret)]
    /\ Name (simple.secretMeta secret) = "my-app-config-synced"
    /\ Namespace (simple.secretMeta secret) = "default"
    /\ simple.StringData secret = {[ "DB_HOST" := "db.local" ]}
    /\ refName <$> OwnerReferences (simple.secretMeta secret) = ["my-app-config"].
Proof.
  intros cm st.
  destruct (missing_secret_is_created simple.reconciler simple.sampleReq
              st st st cm "true"
              (WithKind {| Group := ""; Version := "v1" |} "ConfigMap")
              cached.notFound eq_refl eq_refl eq_refl eq_refl eq_refl)
    as (secret & Hrun & Hname & Hns & Hdata & _ & Hrefs).
  exists secret. split_and!; [|exact Hname | exact Hns | exact Hdata | by rewrite Hrefs].
  unfold simple.traceOf. rewrite Hrun. reflexivity.
Defined.

Lemma existing_secret_is_overwritten_witness :
  let cm := simple.sampleConfigMap {[ simple.syncAnnotation := "" ]} in
  let st := simple.storeOf [cm] [simple.sampleSecret] in
  exists sent,
    List.filter simple.isWrite (simple.traceOf simple.reconciler simple.sampleReq st)
      = [simple.EvUpdateSecret sent (Ok sent)]
    /\ simple.StringData sent = {[ "DB_HOST" := "db.local" ]}
    /\ simple.secretData sent = {[ "TOKEN" := "abc" ]}
    /\ OwnerReferences (simple.secretMeta sent) = []
    /\ Finalizers (simple.secretMeta sent) = ["keep"].
Proof.
  intros cm st.
  destruct (existing_secret_is_overwritten simple.reconciler simple.sampleReq
              st st st cm ""
              (WithKind {| Group := ""; Version := "v1" |} "ConfigMap")
              simple.sampleSecret eq_refl eq_refl eq_refl eq_refl)
    as (Hrun & Hdata & _ & Hbytes & _ & _ & Hrefs & _ & Hfin & _).
  eexists. split_and!; [|exact Hdata | exact Hbytes | exact Hrefs | exact Hfin].
  unfold simple.traceOf. rewrite Hrun. vm_compute. reflexivity.
Defined.

